(** * proxy-server.js: the CORS forwarding proxy

    A shallow embedding of the request handler passed to [http.createServer]
    in [proxy-server.js], and of the two callbacks it registers on the
    outbound request (the response callback and the [error] listener).

    JavaScript objects used as header tables are finite maps from property
    names to values.  The handler is a function from the inbound request to
    the list of actions it performs on [res] and on the outbound request.
    The Node.js built-ins the handler calls ([url.parse], [new URL], the
    [ClientRequest] constructor) are the fields of the class [Node]; the
    theorems hold for every instance of it. Console output is not modelled. *)

From Stdlib Require Import ZArith NArith Ascii String.
From stdpp Require Import gmap strings list fin_maps pretty.

Open Scope string_scope.

(** ** JavaScript values *)

(** The values that occur in query objects and header tables: a property
    that is missing reads as [undefined], a single occurrence is a string
    and a repeated one an array of strings. *)
Inductive jsval : Type :=
  | JUndefined
  | JStr (s : string)
  | JArr (l : list string).

#[global] Instance jsval_eq_dec : EqDecision jsval.
Proof. solve_decision. Defined.

#[global] Instance jsval_inhabited : Inhabited jsval := populate JUndefined.

(** ToBoolean: [undefined] and the empty string are falsy, every other
    string and every array (the empty one too) is truthy. *)
Definition truthy (v : jsval) : bool :=
  match v with
  | JUndefined => false
  | JStr s => negb (String.eqb s "")
  | JArr _ => true
  end.

(** [Array.prototype.join] with separator [sep]. *)
Fixpoint join (sep : string) (l : list string) : string :=
  match l with
  | [] => ""
  | [s] => s
  | s :: rest => s ++ sep ++ join sep rest
  end.

(** ToString, as applied by [new URL(v)] to its argument. *)
Definition ToString (v : jsval) : string :=
  match v with
  | JUndefined => "undefined"
  | JStr s => s
  | JArr l => join "," l
  end.

(** A header table or a query object. *)
Abbreviation jsobj := (gmap string jsval).

(** [o[k]]: reading a property that is not there gives [undefined]. *)
Definition get (o : jsobj) (k : string) : jsval := default JUndefined (o !! k).

(** [Object.keys(o)]. *)
Definition Object_keys (o : jsobj) : list string := (map_to_list o).*1.

(** An object literal [{ k1: v1, ..., kn: vn }] of string values. *)
Definition obj_of (l : list (string * string)) : jsobj :=
  list_to_map (prod_map id JStr <$> l).

(** ** JSON.stringify on flat objects of strings *)

Definition dquote : string := String "034"%char "".
Definition backslash : string := String "092"%char "".

Definition hex_digit (n : N) : ascii :=
  ascii_of_N (if (n <? 10)%N then 48 + n else 87 + n)%N.

(** QuoteJSONString on one code unit below 128: the two-character escapes,
    [\u00xx] for the other control characters, the character itself
    otherwise. *)
Definition json_escape (c : ascii) : string :=
  let n := N_of_ascii c in
  if (n =? 34)%N then backslash ++ dquote
  else if (n =? 92)%N then backslash ++ backslash
  else if (n =? 8)%N then backslash ++ "b"
  else if (n =? 9)%N then backslash ++ "t"
  else if (n =? 10)%N then backslash ++ "n"
  else if (n =? 12)%N then backslash ++ "f"
  else if (n =? 13)%N then backslash ++ "r"
  else if (n <? 32)%N then
    backslash ++ "u00" ++ String (hex_digit (n / 16)) (String (hex_digit (n mod 16)) "")
  else String c "".

Fixpoint json_escape_string (s : string) : string :=
  match s with
  | EmptyString => ""
  | String c rest => json_escape c ++ json_escape_string rest
  end.

Definition json_quote (s : string) : string :=
  dquote ++ json_escape_string s ++ dquote.

Definition json_member (kv : string * string) : string :=
  json_quote kv.1 ++ ":" ++ json_quote kv.2.

(** [JSON.stringify({ k1: v1, ..., kn: vn })] with string values. *)
Definition JSON_stringify (fields : list (string * string)) : string :=
  "{" ++ join "," (json_member <$> fields) ++ "}".

(** ** Streams *)

(** The write side of a stream: the chunks written so far, oldest first,
    and whether [end()] was called. *)
Record Writable : Type := mkWritable {
  written : list string;
  ended : bool
}.

Definition fresh_writable : Writable := mkWritable [] false.

Definition write (w : Writable) (chunk : string) : Writable :=
  mkWritable (written w ++ [chunk]) (ended w).

Definition end_ (w : Writable) : Writable := mkWritable (written w) true.

(** [src.pipe(dst)]: every chunk of the source is written to the
    destination as it is read, and the destination is ended when the source
    ends. *)
Definition pipe (chunks : list string) (dst : Writable) : Writable :=
  end_ (foldl write dst chunks).

(** The bytes a peer has received from a stream. *)
Definition received (w : Writable) : string := String.concat "" (written w).

(** ** The objects the handler works on *)

(** The inbound request [req]: its method, its request target ([req.url],
    path and query), its header table and the chunks of its body. *)
Module req.
Record t : Type := mk {
  method : string;
  url : string;
  headers : jsobj;
  body : list string
}.
End req.

(** The fields of a WHATWG [URL] object that the handler reads. *)
Module URL.
Record t : Type := mk {
  protocol : string;
  hostname : string;
  port : string;
  pathname : string;
  search : string
}.
End URL.

(** [options.port] is either the URL's port, a string, or one of the two
    numeric defaults. *)
Inductive port_value : Type :=
  | PortStr (s : string)
  | PortNum (n : Z).

#[global] Instance port_value_eq_dec : EqDecision port_value.
Proof. solve_decision. Defined.

(** The [options] object handed to [protocol.request]. *)
Module options.
Record t : Type := mk {
  hostname : string;
  port : port_value;
  path : string;
  method : string;
  headers : jsobj
}.

(** [delete options.headers[k]] *)
Definition delete_header (k : string) (o : t) : t :=
  mk (hostname o) (port o) (path o) (method o) (delete k (headers o)).
End options.

(** The response of the target, [proxyRes]. *)
Module proxyRes.
Record t : Type := mk {
  statusCode : Z;
  headers : jsobj;
  body : list string
}.
End proxyRes.

(** The two client modules the handler chooses between. *)
Inductive transport : Type := http | https.

#[global] Instance transport_eq_dec : EqDecision transport.
Proof. solve_decision. Defined.

(** What the handler and its callbacks do, in program order. The last one
    is an error thrown by a call on [res] that leaves the listener which
    made the call. *)
Inductive action : Type :=
  | res_writeHead (status : Z) (h : jsobj)
  | res_end (data : option string)
  | protocol_request (via : transport) (o : options.t)
  | req_pipe_proxyReq
  | proxyReq_end
  | proxyRes_pipe_res
  | listener_throws.

(** The Node.js built-ins the handler calls.
    - [url_parse_query u] is [url.parse(u, true).query];
    - [new_URL s] is [new URL(s)]: [inr] of the URL object, or [inl] of the
      message of the error thrown;
    - [ClientRequest_throws via o] is the message of the error the
      [ClientRequest] constructor throws on [o], if it throws. *)
Class Node : Type := {
  url_parse_query : string → jsobj;
  new_URL : string → string + URL.t;
  ClientRequest_throws : transport → options.t → option string
}.

(** ** The handler *)

(** The header table of the response to a preflight request. *)
Definition preflight_headers : jsobj :=
  obj_of [ ("Access-Control-Allow-Origin", "*");
           ("Access-Control-Allow-Methods", "GET, POST, PUT, DELETE, PROPFIND, HEAD, OPTIONS");
           ("Access-Control-Allow-Headers", "Content-Type, Authorization, Depth, User-Agent");
           ("Access-Control-Max-Age", "86400") ].

(** The initial value of [responseHeaders] in the response callback. *)
Definition cors_headers : jsobj :=
  obj_of [ ("Access-Control-Allow-Origin", "*");
           ("Access-Control-Allow-Methods", "GET, POST, PUT, DELETE, PROPFIND, HEAD, OPTIONS");
           ("Access-Control-Allow-Headers", "Content-Type, Authorization, Depth, User-Agent");
           ("Access-Control-Expose-Headers", "*") ].

(** The response written when [targetUrl] is falsy. *)
Definition missing_target : list action :=
  [ res_writeHead 400 (obj_of [("Content-Type", "application/json")]);
    res_end (Some (JSON_stringify [("error", "Missing target URL. Use ?url=...")])) ].

(** The [catch] block. *)
Definition invalid_target (message : string) : list action :=
  [ res_writeHead 400 (obj_of [("Content-Type", "application/json");
                               ("Access-Control-Allow-Origin", "*")]);
    res_end (Some (JSON_stringify [("error", "Invalid target URL");
                                   ("message", message)])) ].

(** The [error] listener of [proxyReq]. *)
Definition on_error (message : string) : list action :=
  [ res_writeHead 502 (obj_of [("Content-Type", "application/json");
                               ("Access-Control-Allow-Origin", "*")]);
    res_end (Some (JSON_stringify [("error", "Proxy request failed");
                                   ("message", message)])) ].

(** The [forEach] loop of the response callback:
    [responseHeaders[key] = proxyRes.headers[key]] for each key in turn. *)
Definition copy_headers (src : jsobj) (responseHeaders : jsobj) : jsobj :=
  foldl (λ acc key, <[key := get src key]> acc) responseHeaders (Object_keys src).

(** The response callback of [protocol.request]. *)
Definition on_response (r : proxyRes.t) : list action :=
  let responseHeaders := copy_headers (proxyRes.headers r) cors_headers in
  [ res_writeHead (proxyRes.statusCode r) responseHeaders;
    proxyRes_pipe_res ].

(** The condition of the last [if] of the [try] block. *)
Definition has_body (m : string) : bool :=
  negb (String.eqb m "GET") && negb (String.eqb m "HEAD")
  && negb (String.eqb m "DELETE") && negb (String.eqb m "PROPFIND").

(** The [options] object as it is when [protocol.request] is called: the
    literal, then the two [delete] statements. *)
Definition build_options (r : req.t) (target : URL.t) : options.t :=
  let o :=
    options.mk
      (URL.hostname target)
      (if truthy (JStr (URL.port target)) then PortStr (URL.port target)
       else PortNum (if String.eqb (URL.protocol target) "https:" then 443 else 80))
      (URL.pathname target ++ URL.search target)
      (req.method r)
      (<["host" := JStr (URL.hostname target)]> (req.headers r)) in
  options.delete_header "connection" (options.delete_header "host" o).

Section handler.
Context `{Node}.

(** The [try] block: the actions performed, and the message of the error
    that left the block, if one did. *)
Definition try_block (r : req.t) (targetUrl : jsval) : list action * option string :=
  match new_URL (ToString targetUrl) with
  | inl message => ([], Some message)
  | inr target =>
      let protocol := if String.eqb (URL.protocol target) "https:" then https else http in
      let o := build_options r target in
      match ClientRequest_throws protocol o with
      | Some message => ([], Some message)
      | None =>
          (protocol_request protocol o ::
             (if has_body (req.method r) then [req_pipe_proxyReq] else [proxyReq_end]),
           None)
      end
  end.

(** The function passed to [http.createServer]. *)
Definition handler (r : req.t) : list action :=
  if String.eqb (req.method r) "OPTIONS" then
    [ res_writeHead 200 preflight_headers; res_end None ]
  else
    let targetUrl := get (url_parse_query (req.url r)) "url" in
    if negb (truthy targetUrl) then missing_target
    else
      match try_block r targetUrl with
      | (done, None) => done
      | (done, Some message) => done ++ invalid_target message
      end.

(** What happens to an outbound request. The response callback and the
    [error] listener are both registered for as long as the request lives:
    the target answers and nothing else happens; the request emits [error]
    before any answer; the target answers and the request emits [error]
    afterwards, while the body is relayed; or neither ever happens. *)
Inductive upstream : Type :=
  | Responds (r : proxyRes.t)
  | Fails (message : string)
  | RespondsThenFails (r : proxyRes.t) (message : string)
  | Silent.

(** The [error] listener run after the response callback: [res.writeHead]
    throws when a head has been written, so the listener stops at its first
    call on [res] and the error leaves it. *)
Definition on_error_after_head (message : string) : list action :=
  (take 1 (on_error message) ++ [ listener_throws ])%list.

Definition callback (u : upstream) : list action :=
  match u with
  | Responds r => on_response r
  | Fails message => on_error message
  | RespondsThenFails r message => (on_response r ++ on_error_after_head message)%list
  | Silent => []
  end.

Definition is_request (a : action) : bool :=
  match a with protocol_request _ _ => true | _ => false end.

(** One exchange: the handler, then the callback of the outbound request
    if the handler made one. *)
Definition exchange (r : req.t) (u : upstream) : list action :=
  let acts := handler r in
  if existsb is_request acts then acts ++ callback u else acts.
End handler.

(** ** Reading a list of actions *)

(** The status and header table of the response: the arguments of the
    first [res.writeHead]. *)
Fixpoint response_head (acts : list action) : option (Z * jsobj) :=
  match acts with
  | [] => None
  | res_writeHead status h :: _ => Some (status, h)
  | _ :: rest => response_head rest
  end.

(** The data given to [res.end], when the body is written by the handler
    itself rather than piped. *)
Fixpoint response_body (acts : list action) : option string :=
  match acts with
  | [] => None
  | res_end data :: _ => Some (default "" data)
  | _ :: rest => response_body rest
  end.

(** The outbound requests made. *)
Definition outbound (acts : list action) : list (transport * options.t) :=
  omap (λ a, match a with protocol_request via o => Some (via, o) | _ => None end) acts.

(** The write side of [proxyReq] after the actions, for an inbound body
    made of [chunks]. *)
Definition proxyReq_stream (chunks : list string) (acts : list action) : Writable :=
  foldl (λ w a, match a with
                | req_pipe_proxyReq => pipe chunks w
                | proxyReq_end => end_ w
                | _ => w
                end) fresh_writable acts.

(** The write side of [res] after the actions, for a target body made of
    [chunks]. *)
Definition res_stream (chunks : list string) (acts : list action) : Writable :=
  foldl (λ w a, match a with
                | res_end data => end_ (from_option (write w) w data)
                | proxyRes_pipe_res => pipe chunks w
                | _ => w
                end) fresh_writable acts.

(** ** A reference instance of the built-ins

    An executable instance of [Node] on which the handler can be run.  It
    follows Node.js on the inputs used below: request targets without
    [#], [%], [+] or white space, and target URLs made of a scheme
    other than [file], an authority without user information or IPv6
    literal, and a path and query that need no escaping or dot-segment
    removal. *)
Module reference.

(** The part before the first [c], and the part after it if [c] occurs. *)
Fixpoint split_at (c : ascii) (s : string) : string * option string :=
  match s with
  | EmptyString => ("", None)
  | String a rest =>
      if Ascii.eqb a c then ("", Some rest)
      else let '(h, t) := split_at c rest in (String a h, t)
  end.

(** [s.split(c)] *)
Fixpoint split_on (c : ascii) (s : string) : list string :=
  match s with
  | EmptyString => [""]
  | String a rest =>
      if Ascii.eqb a c then "" :: split_on c rest
      else match split_on c rest with
           | h :: t => String a h :: t
           | [] => [String a ""]
           end
  end.

(** [querystring.parse]: a repeated key collects its values in an array. *)
Definition add_pair (q : jsobj) (part : string) : jsobj :=
  if String.eqb part "" then q
  else
    let '(k, v) := split_at "=" part in
    let v := default "" v in
    match q !! k with
    | None | Some JUndefined => <[k := JStr v]> q
    | Some (JStr old) => <[k := JArr [old; v]]> q
    | Some (JArr l) => <[k := JArr (l ++ [v])]> q
    end.

Definition querystring_parse (qs : string) : jsobj :=
  foldl add_pair ∅ (split_on "&" qs).

Definition url_parse_query (u : string) : jsobj :=
  match split_at "?" u with
  | (_, Some qs) => querystring_parse qs
  | (_, None) => ∅
  end.

Definition is_alpha (c : ascii) : bool :=
  let n := N_of_ascii c in
  ((65 <=? n) && (n <=? 90) || (97 <=? n) && (n <=? 122))%N.

Definition is_digit (c : ascii) : bool :=
  let n := N_of_ascii c in ((48 <=? n) && (n <=? 57))%N.

Definition lower (c : ascii) : ascii :=
  let n := N_of_ascii c in
  if ((65 <=? n) && (n <=? 90))%N then ascii_of_N (n + 32) else c.

Fixpoint map_string (f : ascii → ascii) (s : string) : string :=
  match s with
  | EmptyString => ""
  | String c rest => String (f c) (map_string f rest)
  end.

Fixpoint forall_string (p : ascii → bool) (s : string) : bool :=
  match s with
  | EmptyString => true
  | String c rest => p c && forall_string p rest
  end.

Definition is_scheme (s : string) : bool :=
  match s with
  | EmptyString => false
  | String c rest =>
      is_alpha c &&
      forall_string (λ a, is_alpha a || is_digit a
                          || bool_decide (a ∈ ["+"; "-"; "."]%char)) rest
  end.

Definition default_port (scheme : string) : option N :=
  if String.eqb scheme "http" then Some 80%N
  else if String.eqb scheme "https" then Some 443%N
  else if String.eqb scheme "ftp" then Some 21%N
  else if String.eqb scheme "ws" then Some 80%N
  else if String.eqb scheme "wss" then Some 443%N
  else None.

Definition is_special (scheme : string) : bool :=
  bool_decide (is_Some (default_port scheme)).

Definition forbidden_host_char (c : ascii) : bool :=
  let n := N_of_ascii c in
  (n <=? 32)%N || (127 <=? n)%N
  || bool_decide (c ∈ ["#"; "%"; "/"; ":"; "<"; ">"; "?"; "@"; "["; "\"; "]"; "^"; "|"]%char).

Fixpoint drop_slashes (s : string) : string :=
  match s with
  | String c rest =>
      if bool_decide (c ∈ ["/"; "\"]%char) then drop_slashes rest else s
  | EmptyString => ""
  end.

Fixpoint decimal (acc : N) (s : string) : N :=
  match s with
  | EmptyString => acc
  | String c rest => decimal (10 * acc + (N_of_ascii c - 48)) rest
  end.

(** The authority, and what follows it: the authority ends before the
    first [/], [?] or [#]. *)
Fixpoint split_authority (s : string) : string * string :=
  match s with
  | EmptyString => ("", "")
  | String c rest =>
      if bool_decide (c ∈ ["/"; "?"; "#"]%char) then ("", s)
      else let '(a, t) := split_authority rest in (String c a, t)
  end.

Definition invalid : string + URL.t := inl "Invalid URL".

(** Path, query and fragment. *)
Definition parse_tail (scheme host port tail : string) : string + URL.t :=
  let '(before_hash, _) := split_at "#" tail in
  let '(path, query) := split_at "?" before_hash in
  let pathname :=
    if String.eqb path "" then (if is_special scheme then "/" else "") else path in
  let search :=
    match query with
    | Some (String c q) => String "?" (String c q)
    | _ => ""
    end in
  inr (URL.mk (scheme ++ ":") host port pathname search).

Definition parse_authority (scheme rest : string) : string + URL.t :=
  let '(authority, tail) := split_authority rest in
  let '(host, port) := split_at ":" authority in
  let host := if is_special scheme then map_string lower host else host in
  if is_special scheme && String.eqb host "" then invalid
  else if negb (forall_string (λ c, negb (forbidden_host_char c)) host) then invalid
  else
    match port with
    | None | Some EmptyString => parse_tail scheme host "" tail
    | Some digits =>
        if negb (forall_string is_digit digits) then invalid
        else
          let n := decimal 0 digits in
          if (65535 <? n)%N then invalid
          else if bool_decide (default_port scheme = Some n)
               then parse_tail scheme host "" tail
               else parse_tail scheme host (pretty n) tail
    end.

(** [new URL(s)] without a base. *)
Definition new_URL (s : string) : string + URL.t :=
  match split_at ":" s with
  | (_, None) => invalid
  | (scheme, Some rest) =>
      if negb (is_scheme scheme) then invalid
      else
        let scheme := map_string lower scheme in
        if is_special scheme then parse_authority scheme (drop_slashes rest)
        else
          match rest with
          | String "/" (String "/" rest') => parse_authority scheme rest'
          | _ => parse_tail scheme "" "" rest
          end
  end.

(** The constructor of [ClientRequest] accepts the methods, header tables
    and URL components produced by Node's own parsers. *)
Definition ClientRequest_throws (via : transport) (o : options.t) : option string :=
  None.

#[export] Instance node : Node :=
  Build_Node url_parse_query new_URL ClientRequest_throws.

End reference.

(** ** Sample requests and responses *)

Definition inbound_headers : jsobj :=
  obj_of [ ("host", "localhost:8080");
           ("connection", "keep-alive");
           ("authorization", "Basic dXNlcjpwYXNz");
           ("x-test", "abc") ].

Definition preflight_request : req.t :=
  req.mk "OPTIONS" "/any/path?x=1" inbound_headers [].

Definition bare_request : req.t :=
  req.mk "GET" "/" inbound_headers [].

Definition other_parameter_request : req.t :=
  req.mk "GET" "/index.html?page=2" inbound_headers [].

Definition empty_url_request : req.t :=
  req.mk "GET" "/?url=" inbound_headers [].

Definition not_a_url_request : req.t :=
  req.mk "GET" "/?url=not-a-url" inbound_headers [].

Definition ftp_request : req.t :=
  req.mk "GET" "/?url=ftp://example.com/file" inbound_headers [].

Definition get_request : req.t :=
  req.mk "GET" "/?url=http://example.test/foo" inbound_headers [].

Definition post_request : req.t :=
  req.mk "POST" "/?url=https://example.test:8443/dav/?depth=1" inbound_headers
    ["pay"; "load"].

Definition created_response : proxyRes.t :=
  proxyRes.mk 201 (obj_of [ ("x-custom", "v"); ("content-type", "text/plain") ])
    ["hel"; "lo"].

(** ** Further readings of a list of actions *)

Definition is_writeHead (a : action) : bool :=
  match a with res_writeHead _ _ => true | _ => false end.

(** [String.prototype.toLowerCase] on code units below 128. *)
Definition toLowerCase (s : string) : string :=
  reference.map_string reference.lower s.

(** ** The headers of the outbound request

    What the constructor of [ClientRequest] does with [options.headers],
    [options.hostname] and [options.port]: every entry of the table is set
    as a header, under its name in lower case, and when none of them is
    [host] a header [Host] is added, made of the host name and, when the
    port is not the default one of the module, of the port. *)

(** [agent.defaultPort] *)
Definition defaultPort (via : transport) : Z :=
  match via with http => 80 | https => 443 end.

Definition port_truthy (p : port_value) : bool :=
  match p with
  | PortStr s => negb (String.eqb s "")
  | PortNum n => negb (n =? 0)%Z
  end.

(** [+port], for a number or a string of decimal digits. *)
Definition port_number (p : port_value) : Z :=
  match p with
  | PortStr s => Z.of_N (reference.decimal 0 s)
  | PortNum n => n
  end.

(** [':' + port] appends the port as a string. *)
Definition port_string (p : port_value) : string :=
  match p with
  | PortStr s => s
  | PortNum n => pretty n
  end.

Fixpoint count_colons (s : string) : nat :=
  match s with
  | EmptyString => 0
  | String c rest => (if Ascii.eqb c ":" then 1 else 0) + count_colons rest
  end.

(** An IPv6 address that is not yet in square brackets. *)
Definition needs_brackets (host : string) : bool :=
  (2 <=? count_colons host)%nat && negb (String.prefix "[" host).

(** The value of the [Host] header that the constructor adds. *)
Definition host_header (via : transport) (o : options.t) : string :=
  let host := if String.eqb (options.hostname o) "" then "localhost"
              else options.hostname o in
  let hostHeader := if needs_brackets host then "[" ++ host ++ "]" else host in
  let port := if port_truthy (options.port o) then options.port o
              else PortNum (defaultPort via) in
  if (port_number port =? defaultPort via)%Z then hostHeader
  else hostHeader ++ ":" ++ port_string port.

(** The table with every name in lower case. Two names that differ in case
    only are one header; which of the two values stays is not specified
    here. *)
Definition lower_keys (h : jsobj) : jsobj :=
  list_to_map (prod_map toLowerCase id <$> map_to_list h).

(** [proxyReq.getHeaders()]: the headers of the outbound request, by their
    names in lower case. *)
Definition getHeaders (via : transport) (o : options.t) : jsobj :=
  let h := lower_keys (options.headers o) in
  if decide (is_Some (h !! "host")) then h
  else <["host" := JStr (host_header via o)]> h.

(** The [host] getter of a URL object: the host name, followed by a colon
    and the port when the URL holds a port. *)
Definition URL_host (target : URL.t) : string :=
  if String.eqb (URL.port target) "" then URL.hostname target
  else URL.hostname target ++ ":" ++ URL.port target.


(** ** Percent escapes *)

Definition hex_value (c : ascii) : option N :=
  let n := N_of_ascii c in
  if ((48 <=? n) && (n <=? 57))%N then Some (n - 48)%N
  else if ((65 <=? n) && (n <=? 70))%N then Some (n - 55)%N
  else if ((97 <=? n) && (n <=? 102))%N then Some (n - 87)%N
  else None.

(** Replaces every [%XY] by the character of that code; [None] when a [%]
    is not followed by two hexadecimal digits. On strings whose escapes are
    all below [%80] this is [decodeURIComponent], [None] standing for the
    [URIError] it throws. *)
Fixpoint percent_decode (s : string) : option string :=
  match s with
  | EmptyString => Some ""
  | String c rest =>
      if Ascii.eqb c "%" then
        match rest with
        | String a (String b rest') =>
            match hex_value a, hex_value b with
            | Some x, Some y =>
                String (ascii_of_N (16 * x + y)) <$> percent_decode rest'
            | _, _ => None
            end
        | _ => None
        end
      else String c <$> percent_decode rest
  end.

(** ** An instance with escapes and the path check of the client

    As [reference], with two additions: the values of the query are
    unescaped, as [querystring.parse] does, and the constructor of
    [ClientRequest] refuses a path that has a character outside
    [!-ÿ], as Node.js does. *)
Module checking.

Definition unescape_value (v : jsval) : jsval :=
  match v with
  | JStr s => JStr (default s (percent_decode s))
  | JArr l => JArr ((λ s, default s (percent_decode s)) <$> l)
  | JUndefined => JUndefined
  end.

Definition url_parse_query (u : string) : jsobj :=
  unescape_value <$> reference.url_parse_query u.

Definition ClientRequest_throws (via : transport) (o : options.t) : option string :=
  if reference.forall_string (λ c, (33 <=? N_of_ascii c)%N) (options.path o) then None
  else Some "Request path contains unescaped characters".

#[export] Instance node : Node :=
  Build_Node url_parse_query reference.new_URL ClientRequest_throws.

End checking.

Definition data_url_request : req.t :=
  req.mk "GET" "/?url=data:text/plain,hello%20world" inbound_headers [].

Definition repeated_url_request : req.t :=
  req.mk "GET" "/?url=a&url=b" inbound_headers [].

(** * server.js: the static file server

    The functions of [server.js] that answer a request, over the built-ins
    they call: [url.parse], [decodeURIComponent], [path], [fs] and
    [__dirname], the fields of the class [Platform]. The file system is
    read as it is at one moment of the request. A run is the list of the
    events of the handler in program order: calls to [fs], calls on [res],
    and an error that leaves the handler. Console output is not modelled. *)
Module server.

Definition MIME_TYPES : jsobj :=
  obj_of [ (".html", "text/html; charset=utf-8");
           (".css", "text/css; charset=utf-8");
           (".js", "text/javascript; charset=utf-8");
           (".json", "application/json; charset=utf-8");
           (".png", "image/png");
           (".jpg", "image/jpeg");
           (".jpeg", "image/jpeg");
           (".gif", "image/gif");
           (".svg", "image/svg+xml; charset=utf-8");
           (".ico", "image/x-icon");
           (".txt", "text/plain; charset=utf-8");
           (".md", "text/markdown; charset=utf-8") ].

Definition DEFAULT_FILES : list string := ["index.html"; "default.html"].

(** What [fs.stat] does with a path: it throws (an argument it refuses), it
    calls back with an error that has a code and a message, or it calls back
    with the stats of a directory or of something else. *)
Inductive stat_result : Type :=
  | stat_throws (message : string)
  | stat_error (code message : string)
  | stat_ok (isDirectory : bool).

(** The built-ins.
    - [url_parse_pathname u] is [url.parse(u, true).pathname], [None] for
      [null];
    - [decodeURIComponent s] is [inr] of the decoded string or [inl] of the
      message of the [URIError];
    - [path_extname p] is the empty string or starts with a dot, so that it
      names no inherited property of [MIME_TYPES];
    - [fs_readFile p] is [inr] of the content or [inl] of the message of
      the error given to the callback. *)
Class Platform : Type := {
  __dirname : string;
  url_parse_pathname : string → option string;
  decodeURIComponent : string → string + string;
  path_normalize : string → string;
  path_join : string → string → string;
  path_extname : string → string;
  fs_stat : string → stat_result;
  fs_existsSync : string → bool;
  fs_readFile : string → string + string
}.

(** A step of a run. *)
Inductive event : Type :=
  | Stat (p : string)
  | Exists (p : string)
  | Read (p : string)
  | Res (a : action)
  | Throw (message : string).

Definition sendResponse (statusCode : Z) (contentType content : string) : list action :=
  [ res_writeHead statusCode
      (obj_of [ ("Content-Type", contentType);
                ("Access-Control-Allow-Origin", "*");
                ("Access-Control-Allow-Methods", "GET, POST, OPTIONS");
                ("Access-Control-Allow-Headers", "Content-Type");
                ("Cache-Control", "no-cache, no-store, must-revalidate");
                ("Pragma", "no-cache");
                ("Expires", "0");
                ("X-Content-Type-Options", "nosniff");
                ("X-Frame-Options", "DENY") ]);
    res_end (Some content) ].

(** The template literal of [sendError]. *)
Definition error_page (statusCode : Z) (message : string) : string :=
  "
    <!DOCTYPE html>
    <html lang="
  ++ dquote
  ++ "zh"
  ++ dquote
  ++ ">
    <head>
      <meta charset="
  ++ dquote
  ++ "UTF-8"
  ++ dquote
  ++ ">
      <meta name="
  ++ dquote
  ++ "viewport"
  ++ dquote
  ++ " content="
  ++ dquote
  ++ "width=device-width, initial-scale=1.0"
  ++ dquote
  ++ ">
      <title>"
  ++ pretty statusCode
  ++ " - 错误</title>
      <style>
        body { 
          font-family: -apple-system, BlinkMacSystemFont, 'Segoe UI', Roboto, sans-serif;
          display: flex; 
          justify-content: center; 
          align-items: center; 
          height: 100vh; 
          margin: 0; 
          background: linear-gradient(135deg, #667eea 0%, #764ba2 100%);
          color: white;
        }
        .error-container { 
          text-align: center; 
          padding: 40px;
          background: rgba(255, 255, 255, 0.1);
          border-radius: 20px;
          backdrop-filter: blur(10px);
        }
        .error-code { 
          font-size: 6rem; 
          font-weight: 800; 
          margin: 0;
          text-shadow: 0 4px 8px rgba(0,0,0,0.2);
        }
        .error-message { 
          font-size: 1.5rem; 
          margin: 20px 0;
          opacity: 0.9;
        }
        .error-description { 
          font-size: 1rem; 
          opacity: 0.7;
          margin-bottom: 30px;
        }
        .back-btn {
          display: inline-block;
          padding: 12px 24px;
          background: white;
          color: #667eea;
          text-decoration: none;
          border-radius: 8px;
          font-weight: 600;
          transition: transform 0.2s, box-shadow 0.2s;
        }
        .back-btn:hover {
          transform: translateY(-2px);
          box-shadow: 0 4px 12px rgba(0,0,0,0.2);
        }
      </style>
    </head>
    <body>
      <div class="
  ++ dquote
  ++ "error-container"
  ++ dquote
  ++ ">
        <h1 class="
  ++ dquote
  ++ "error-code"
  ++ dquote
  ++ ">"
  ++ pretty statusCode
  ++ "</h1>
        <p class="
  ++ dquote
  ++ "error-message"
  ++ dquote
  ++ ">"
  ++ message
  ++ "</p>
        <p class="
  ++ dquote
  ++ "error-description"
  ++ dquote
  ++ ">抱歉，您访问的页面出现了问题</p>
        <a href="
  ++ dquote
  ++ "/"
  ++ dquote
  ++ " class="
  ++ dquote
  ++ "back-btn"
  ++ dquote
  ++ ">返回首页</a>
      </div>
    </body>
    </html>
  ".

Definition sendError (statusCode : Z) (message : string) : list action :=
  sendResponse statusCode "text/html; charset=utf-8" (error_page statusCode message).

(** [s.replace(/^(\.\.[\/\\])+/, '')]: the longest run of [../] and [..\]
    at the start of [s] is removed. *)
Fixpoint strip_parent_prefix (s : string) : string :=
  match s with
  | String a (String b (String c rest)) =>
      if Ascii.eqb a "." && Ascii.eqb b "." && (Ascii.eqb c "/" || Ascii.eqb c "\")
      then strip_parent_prefix rest
      else s
  | _ => s
  end.

(** [{ ...req, url: u }] *)
Definition with_url (r : req.t) (u : string) : req.t :=
  req.mk (req.method r) u (req.headers r) (req.body r).

Section functions.
Context `{Platform}.

Definition getMimeType (filePath : string) : string :=
  let ext := toLowerCase (path_extname filePath) in
  let found := get MIME_TYPES ext in
  if truthy found then ToString found else "application/octet-stream".

(** The [for] loop over [DEFAULT_FILES]: the probes made, and the first
    file that exists, if one does. *)
Fixpoint first_default (filePath : string) (files : list string)
    : list event * option string :=
  match files with
  | [] => ([], None)
  | defaultFile :: rest =>
      let defaultPath := path_join filePath defaultFile in
      if fs_existsSync defaultPath then ([Exists defaultPath], Some defaultFile)
      else let '(probed, found) := first_default filePath rest in
           (Exists defaultPath :: probed, found)
  end.

(** [handleRequest(req, res)], with its callbacks run when [fs] calls
    them. [fuel] bounds the number of nested calls; [None] is a run that
    needs more. *)
Fixpoint handleRequest (fuel : nat) (r : req.t) : option (list event) :=
  match fuel with
  | O => None
  | S fuel' =>
      match decodeURIComponent (from_option id "null" (url_parse_pathname (req.url r))) with
      | inl message => Some [Throw message]
      | inr decoded =>
          let pathname := if String.eqb decoded "/" then "/index.html" else decoded in
          let safePath := strip_parent_prefix (path_normalize pathname) in
          let filePath := path_join __dirname safePath in
          if negb (String.prefix __dirname filePath) then
            Some (Res <$> sendError 403 "禁止访问")
          else
            match fs_stat filePath with
            | stat_throws message => Some [Stat filePath; Throw message]
            | stat_error code message =>
                Some (Stat filePath ::
                      (Res <$> (if String.eqb code "ENOENT"
                                then sendError 404 "页面未找到"
                                else sendError 500 "服务器内部错误")))
            | stat_ok true =>
                match first_default filePath DEFAULT_FILES with
                | (probed, Some defaultFile) =>
                    rest ← handleRequest fuel' (with_url r (path_join pathname defaultFile));
                    Some (Stat filePath :: probed ++ rest)%list
                | (probed, None) =>
                    Some (Stat filePath :: probed ++ (Res <$> sendError 403 "目录访问被禁止"))%list
                end
            | stat_ok false =>
                Some (Stat filePath :: Read filePath ::
                      (Res <$> match fs_readFile filePath with
                               | inl message => sendError 500 "服务器内部错误"
                               | inr content => sendResponse 200 (getMimeType filePath) content
                               end))
            end
      end
  end.

(** The request of the nested call that [handleRequest] makes, if it makes
    one: the path is a directory that has a default file. *)
Definition nested_request (r : req.t) : option req.t :=
  match decodeURIComponent (from_option id "null" (url_parse_pathname (req.url r))) with
  | inl _ => None
  | inr decoded =>
      let pathname := if String.eqb decoded "/" then "/index.html" else decoded in
      let safePath := strip_parent_prefix (path_normalize pathname) in
      let filePath := path_join __dirname safePath in
      if negb (String.prefix __dirname filePath) then None
      else
        match fs_stat filePath with
        | stat_ok true =>
            match first_default filePath DEFAULT_FILES with
            | (_, Some defaultFile) =>
                Some (with_url r (path_join pathname defaultFile))
            | (_, None) => None
            end
        | _ => None
        end
  end.

(** The chain of nested calls that starts at [r] ends within [n] calls. *)
Fixpoint settles (n : nat) (r : req.t) : bool :=
  match n with
  | O => false
  | S n' =>
      match nested_request r with
      | None => true
      | Some r' => settles n' r'
      end
  end.

(** The function passed to [http.createServer] in [createServer]. *)
Definition requestListener (fuel : nat) (r : req.t) : option (list event) :=
  if String.eqb (req.method r) "OPTIONS" then
    Some (Res <$> [ res_writeHead 200
                      (obj_of [ ("Access-Control-Allow-Origin", "*");
                                ("Access-Control-Allow-Methods", "GET, POST, OPTIONS");
                                ("Access-Control-Allow-Headers", "Content-Type") ]);
                    res_end None ])
  else handleRequest fuel r.

End functions.

(** The actions on [res] of a run. *)
Definition responses (evs : list event) : list action :=
  omap (λ e, match e with Res a => Some a | _ => None end) evs.

(** The paths given to [fs.stat] and [fs.readFile] in a run. *)
Definition opened (evs : list event) : list string :=
  omap (λ e, match e with Stat p | Read p => Some p | _ => None end) evs.

Definition is_throw (e : event) : bool :=
  match e with Throw _ => true | _ => false end.

End server.

(** ** A sample site

    An executable instance of [server.Platform]: POSIX paths, request
    targets in origin form without [#], escapes below [%80], and a small
    directory tree under [/srv/clock]. *)
Module site.

(** The segments of a path that remain after [.] and empty segments are
    dropped and [..] has removed the segment before it; [acc] holds the
    segments kept so far, last first. *)
Fixpoint normalize_segments (allowAboveRoot : bool) (acc segments : list string)
    : list string :=
  match segments with
  | [] => reverse acc
  | seg :: rest =>
      if String.eqb seg "" || String.eqb seg "." then
        normalize_segments allowAboveRoot acc rest
      else if String.eqb seg ".." then
        match acc with
        | last :: acc' =>
            if String.eqb last ".." then
              normalize_segments allowAboveRoot (seg :: acc) rest
            else normalize_segments allowAboveRoot acc' rest
        | [] =>
            if allowAboveRoot then normalize_segments allowAboveRoot [seg] rest
            else normalize_segments allowAboveRoot [] rest
        end
      else normalize_segments allowAboveRoot (seg :: acc) rest
  end.

Definition ends_with_slash (p : string) : bool :=
  match last (reference.split_on "/" p) with
  | Some "" => negb (String.eqb p "")
  | _ => false
  end.

(** [path.posix.normalize] *)
Definition path_normalize (p : string) : string :=
  if String.eqb p "" then "."
  else
    let isAbsolute := String.prefix "/" p in
    let body :=
      join "/" (normalize_segments (negb isAbsolute) [] (reference.split_on "/" p)) in
    if String.eqb body "" then
      (if isAbsolute then "/" else if ends_with_slash p then "./" else ".")
    else
      (if isAbsolute then "/" else "") ++ body ++ (if ends_with_slash p then "/" else "").

(** [path.posix.join] of two strings. *)
Definition path_join (a b : string) : string :=
  if String.eqb a "" then path_normalize b
  else if String.eqb b "" then path_normalize a
  else path_normalize (a ++ "/" ++ b).

(** The part of [s] from its last dot on, [None] when it has no dot. *)
Fixpoint from_last_dot (s : string) : option string :=
  match s with
  | EmptyString => None
  | String c rest =>
      match from_last_dot rest with
      | Some ext => Some ext
      | None => if Ascii.eqb c "." then Some s else None
      end
  end.

(** [path.posix.extname] of a path that does not end with a slash. *)
Definition path_extname (p : string) : string :=
  let base := default "" (last (reference.split_on "/" p)) in
  match from_last_dot base with
  | None => ""
  | Some ext =>
      if String.eqb ext base || String.eqb base ".." then "" else ext
  end.

Definition url_parse_pathname (u : string) : option string :=
  Some (reference.split_at "?" u).1.

Definition decodeURIComponent (s : string) : string + string :=
  match percent_decode s with
  | Some decoded => inr decoded
  | None => inl "URI malformed"
  end.

Definition directories : list string :=
  [ "/srv/clock"; "/srv/clock/docs"; "/srv/clock/empty" ].

Definition files : list (string * string) :=
  [ ("/srv/clock/index.html", "<h1>clock</h1>");
    ("/srv/clock/app.JS", "tick()");
    ("/srv/clock/LICENSE", "MIT");
    ("/srv/clock/docs/default.html", "<h1>docs</h1>") ].

Definition lookup_file (p : string) : option string :=
  snd <$> find (λ f, String.eqb f.1 p) files.

Definition has_nul (p : string) : bool :=
  negb (reference.forall_string (λ c, negb (N_of_ascii c =? 0)%N) p).

(** [p] without the slash it ends with, if it ends with one. *)
Fixpoint untrail (p : string) : string :=
  match p with
  | EmptyString => ""
  | String c rest =>
      if Ascii.eqb c "/" && String.eqb rest "" then "" else String c (untrail rest)
  end.

(** A path that ends with a slash names a directory only. *)
Definition fs_stat (p : string) : server.stat_result :=
  if has_nul p then
    server.stat_throws "The argument 'path' must be a string, Uint8Array, or URL without null bytes."
  else if bool_decide (untrail p ∈ directories) then server.stat_ok true
  else if bool_decide (is_Some (lookup_file p)) then server.stat_ok false
  else if bool_decide (is_Some (lookup_file (untrail p))) then
    server.stat_error "ENOTDIR" "not a directory"
  else server.stat_error "ENOENT" "no such file or directory".

Definition fs_existsSync (p : string) : bool :=
  match fs_stat p with
  | server.stat_ok _ => true
  | _ => false
  end.

Definition fs_readFile (p : string) : string + string :=
  match lookup_file p with
  | Some content => inr content
  | None => inl "no such file or directory"
  end.

#[export] Instance platform : server.Platform :=
  server.Build_Platform "/srv/clock" url_parse_pathname decodeURIComponent
    path_normalize path_join path_extname fs_stat fs_existsSync fs_readFile.

Definition get_ (u : string) : req.t := req.mk "GET" u inbound_headers [].

End site.

(** ** Properties of the header tables *)

Lemma elem_of_Object_keys (o : jsobj) (k : string) :
  k ∈ Object_keys o ↔ is_Some (o !! k).
Proof.
  unfold Object_keys. rewrite list_elem_of_fmap. split.
  - intros [[k' v] [-> Hin]]. apply elem_of_map_to_list in Hin. by exists v.
  - intros [v Hv]. exists (k, v). split; [done|]. by apply elem_of_map_to_list.
Qed.

Lemma foldl_assign_lookup (src : jsobj) (ks : list string) (acc : jsobj) (k : string) :
  foldl (λ acc key, <[key := get src key]> acc) acc ks !! k =
  if decide (k ∈ ks) then Some (get src k) else acc !! k.
Proof.
  revert acc. induction ks as [|key ks IH]; intros acc; cbn [foldl].
  - destruct (decide (k ∈ [])) as [Hin|]; [by apply elem_of_nil in Hin | done].
  - rewrite IH. destruct (decide (k ∈ ks)) as [Hin|Hnin].
    + rewrite decide_True; [done | apply elem_of_cons; by right].
    + destruct (decide (k = key)) as [->|Hne].
      * rewrite decide_True; [| apply elem_of_cons; by left].
        by rewrite lookup_insert_eq.
      * rewrite decide_False; [by rewrite lookup_insert_ne |].
        intros [?|?]%elem_of_cons; done.
Qed.

Lemma copy_headers_lookup (src dst : jsobj) (k : string) :
  copy_headers src dst !! k =
  match src !! k with Some v => Some v | None => dst !! k end.
Proof.
  unfold copy_headers. rewrite foldl_assign_lookup.
  case_decide as Hin.
  - apply elem_of_Object_keys in Hin as [v Hv]. unfold get. by rewrite Hv.
  - destruct (src !! k) eqn:Hk; [|done].
    exfalso. apply Hin, elem_of_Object_keys. by rewrite Hk.
Qed.

Lemma copy_headers_union (src dst : jsobj) : copy_headers src dst = src ∪ dst.
Proof.
  apply map_eq. intros k. rewrite copy_headers_lookup, lookup_union.
  by destruct (src !! k), (dst !! k).
Qed.

Lemma obj_of_entries (l : list (string * string)) :
  NoDup l.*1 → map_to_list (obj_of l) ≡ₚ prod_map id JStr <$> l.
Proof.
  intros Hnd. unfold obj_of. apply map_to_list_to_map.
  assert ((prod_map id JStr <$> l).*1 = l.*1) as ->; [|done].
  clear Hnd. induction l as [|[k v] l IH]; [done|]. cbn. by f_equal.
Qed.

(** ** The branches of the handler *)

Section branches.
Context `{Node}.

Lemma handler_preflight (r : req.t) :
  req.method r = "OPTIONS" →
  handler r = [ res_writeHead 200 preflight_headers; res_end None ].
Proof. intros Hm. unfold handler. by rewrite Hm. Qed.

Lemma handler_missing (r : req.t) :
  req.method r ≠ "OPTIONS" →
  truthy (get (url_parse_query (req.url r)) "url") = false →
  handler r = missing_target.
Proof.
  intros Hm Hfalsy. unfold handler.
  apply String.eqb_neq in Hm. by rewrite Hm, Hfalsy.
Qed.

Lemma handler_invalid (r : req.t) (message : string) :
  req.method r ≠ "OPTIONS" →
  truthy (get (url_parse_query (req.url r)) "url") = true →
  new_URL (ToString (get (url_parse_query (req.url r)) "url")) = inl message →
  handler r = invalid_target message.
Proof.
  intros Hm Htruthy Hurl. unfold handler, try_block.
  apply String.eqb_neq in Hm. by rewrite Hm, Htruthy, Hurl.
Qed.

Lemma handler_forward (r : req.t) (target : URL.t) :
  let via := if String.eqb (URL.protocol target) "https:" then https else http in
  req.method r ≠ "OPTIONS" →
  truthy (get (url_parse_query (req.url r)) "url") = true →
  new_URL (ToString (get (url_parse_query (req.url r)) "url")) = inr target →
  ClientRequest_throws via (build_options r target) = None →
  handler r =
    [ protocol_request via (build_options r target);
      if has_body (req.method r) then req_pipe_proxyReq else proxyReq_end ].
Proof.
  intros via Hm Htruthy Hurl Hok. unfold handler, try_block.
  apply String.eqb_neq in Hm. rewrite Hm, Htruthy, Hurl. fold via.
  rewrite Hok. cbn. by destruct (has_body _).
Qed.

(** Every run of the handler is one of: the preflight response, one of the
    two 400 responses, or one outbound request. *)
Lemma handler_cases (r : req.t) :
  handler r = [ res_writeHead 200 preflight_headers; res_end None ]
  ∨ handler r = missing_target
  ∨ (∃ message, handler r = invalid_target message)
  ∨ (∃ via o, handler r =
       [ protocol_request via o;
         if has_body (req.method r) then req_pipe_proxyReq else proxyReq_end ]).
Proof.
  unfold handler, try_block.
  destruct (String.eqb _ _); [by left|].
  destruct (truthy _); cbn; [|by right; left].
  destruct (new_URL _) as [message|target]; [right; right; left; by eexists|].
  destruct (ClientRequest_throws _ _) as [message|];
    [right; right; left; by eexists|].
  right; right; right. do 2 eexists. cbn. by destruct (has_body _).
Qed.

Lemma exchange_local (r : req.t) (u : upstream) :
  existsb is_request (handler r) = false → exchange r u = handler r.
Proof. intros Hno. unfold exchange. by rewrite Hno. Qed.

Lemma exchange_forward (r : req.t) (u : upstream) :
  existsb is_request (handler r) = true → exchange r u = (handler r ++ callback u)%list.
Proof. intros Hreq. unfold exchange. by rewrite Hreq. Qed.
End branches.

(** The header tables written by the [catch] block and by the [error]
    listener carry the CORS header. *)
Lemma invalid_target_cors (message : string) :
  ∃ h, response_head (invalid_target message) = Some (400%Z, h)
       ∧ h !! "Access-Control-Allow-Origin" = Some (JStr "*").
Proof. eexists. split; [reflexivity|]. by vm_compute. Qed.

Lemma on_error_cors (message : string) :
  ∃ h, response_head (on_error message) = Some (502%Z, h)
       ∧ h !! "Access-Control-Allow-Origin" = Some (JStr "*").
Proof. eexists. split; [reflexivity|]. by vm_compute. Qed.

(** ** The claims *)

(** C6. A request whose method is OPTIONS is answered with status 200, an
    empty body and exactly the four preflight headers; nothing else happens,
    whatever the request target is: no outbound request is made. *)
Theorem preflight_response `{Node} (r : req.t) (u : upstream) :
  req.method r = "OPTIONS" →
  ∃ h,
    exchange r u = [ res_writeHead 200 h; res_end None ]
    ∧ map_to_list h ≡ₚ
        [ ("Access-Control-Allow-Origin", JStr "*");
          ("Access-Control-Allow-Methods",
           JStr "GET, POST, PUT, DELETE, PROPFIND, HEAD, OPTIONS");
          ("Access-Control-Allow-Headers",
           JStr "Content-Type, Authorization, Depth, User-Agent");
          ("Access-Control-Max-Age", JStr "86400") ]
    ∧ response_body (exchange r u) = Some ""
    ∧ received (res_stream [] (exchange r u)) = ""
    ∧ outbound (exchange r u) = [].
Proof.
  intros Hm. exists preflight_headers.
  rewrite exchange_local; rewrite (handler_preflight r Hm); [|done].
  split_and!; try done.
  apply (obj_of_entries
           [ ("Access-Control-Allow-Origin", "*");
             ("Access-Control-Allow-Methods", _);
             ("Access-Control-Allow-Headers", _);
             ("Access-Control-Max-Age", "86400") ]).
  apply (bool_decide_unpack _). by vm_compute.
Qed.

Lemma preflight_response_witness :
  req.method preflight_request = "OPTIONS"
  ∧ outbound (exchange (H := reference.node) preflight_request (Fails "unused")) = [].
Proof.
  split; [reflexivity|].
  destruct (preflight_response (H := reference.node)
              preflight_request (Fails "unused") eq_refl)
    as (h & _ & _ & _ & _ & Hout).
  exact Hout.
Defined.

(** C4. A request other than OPTIONS whose query has no [url] parameter is
    answered with status 400 and the body
    [{"error":"Missing target URL. Use ?url=..."}]; no outbound request is
    made. *)
Theorem missing_url_parameter `{Node} (r : req.t) (u : upstream) :
  req.method r ≠ "OPTIONS" →
  url_parse_query (req.url r) !! "url" = None →
  fst <$> response_head (exchange r u) = Some 400%Z
  ∧ response_body (exchange r u) =
      Some ("{" ++ dquote ++ "error" ++ dquote ++ ":" ++ dquote
            ++ "Missing target URL. Use ?url=..." ++ dquote ++ "}")
  ∧ outbound (exchange r u) = [].
Proof.
  intros Hm Habsent.
  assert (handler r = missing_target) as Hh.
  { apply handler_missing; [done|]. unfold get. by rewrite Habsent. }
  rewrite exchange_local; rewrite Hh; done.
Qed.

Lemma missing_url_parameter_witness :
  req.method other_parameter_request ≠ "OPTIONS"
  ∧ reference.url_parse_query (req.url other_parameter_request) !! "url" = None
  ∧ outbound (exchange (H := reference.node) other_parameter_request
                (Fails "unused")) = [].
Proof.
  pose (r := other_parameter_request).
  assert (req.method r ≠ "OPTIONS") as Hm by (by vm_compute).
  assert (reference.url_parse_query (req.url r) !! "url" = None) as Habsent
    by (by vm_compute).
  split_and!; [done..|].
  apply (missing_url_parameter (H := reference.node) r (Fails "unused") Hm Habsent).
Defined.

(** C10. A request other than OPTIONS whose [url] parameter is present but
    empty, as in [/?url=], is answered like one without the parameter: status
    400 and the body [{"error":"Missing target URL. Use ?url=..."}], not the
    response of an invalid target. The test is the truthiness of the value. *)
Theorem empty_url_parameter_is_missing `{Node} (r : req.t) (u : upstream) :
  req.method r ≠ "OPTIONS" →
  url_parse_query (req.url r) !! "url" = Some (JStr "") →
  exchange r u = missing_target
  ∧ (∀ message, exchange r u ≠ invalid_target message)
  ∧ fst <$> response_head (exchange r u) = Some 400%Z
  ∧ response_body (exchange r u) =
      Some ("{" ++ dquote ++ "error" ++ dquote ++ ":" ++ dquote
            ++ "Missing target URL. Use ?url=..." ++ dquote ++ "}").
Proof.
  intros Hm Hempty.
  assert (handler r = missing_target) as Hh.
  { apply handler_missing; [done|]. unfold get. by rewrite Hempty. }
  rewrite exchange_local; rewrite Hh; [|done].
  split_and!; done.
Qed.

Lemma empty_url_parameter_is_missing_witness :
  req.method empty_url_request ≠ "OPTIONS"
  ∧ reference.url_parse_query (req.url empty_url_request) !! "url" = Some (JStr "")
  ∧ exchange (H := reference.node) empty_url_request (Fails "unused") = missing_target.
Proof.
  pose (r := empty_url_request).
  assert (req.method r ≠ "OPTIONS") as Hm by (by vm_compute).
  assert (reference.url_parse_query (req.url r) !! "url" = Some (JStr "")) as Hempty
    by (by vm_compute).
  split_and!; [done..|].
  apply (empty_url_parameter_is_missing (H := reference.node) r (Fails "unused")
           Hm Hempty).
Defined.

(** C1. The response to a request without a target carries no CORS header:
    its header table is [Content-Type] alone, unlike the tables written by
    the [catch] block and the [error] listener ([invalid_target_cors],
    [on_error_cors]). *)
Theorem missing_target_lacks_cors_header `{Node} (r : req.t) (u : upstream) :
  req.method r ≠ "OPTIONS" →
  truthy (get (url_parse_query (req.url r)) "url") = false →
  ∃ h,
    response_head (exchange r u) = Some (400%Z, h)
    ∧ map_to_list h ≡ₚ [ ("Content-Type", JStr "application/json") ]
    ∧ h !! "Access-Control-Allow-Origin" = None.
Proof.
  intros Hm Hfalsy.
  rewrite exchange_local; rewrite (handler_missing r Hm Hfalsy); [|done].
  eexists. split; [reflexivity|]. split; [|by vm_compute].
  apply (obj_of_entries [ ("Content-Type", "application/json") ]).
  apply (bool_decide_unpack _). by vm_compute.
Qed.

Lemma missing_target_lacks_cors_header_witness :
  req.method bare_request ≠ "OPTIONS"
  ∧ truthy (get (reference.url_parse_query (req.url bare_request)) "url") = false
  ∧ ∃ h,
      response_head (exchange (H := reference.node) bare_request (Fails "unused"))
        = Some (400%Z, h)
      ∧ map_to_list h ≡ₚ [ ("Content-Type", JStr "application/json") ]
      ∧ h !! "Access-Control-Allow-Origin" = None.
Proof.
  assert (req.method bare_request ≠ "OPTIONS") as Hm by (by vm_compute).
  assert (truthy (get (reference.url_parse_query (req.url bare_request)) "url") = false)
    as Hfalsy by (by vm_compute).
  split_and!; [done..|].
  apply (missing_target_lacks_cors_header (H := reference.node) bare_request
           (Fails "unused") Hm Hfalsy).
Defined.

(** ** The outbound request *)

Lemma has_body_false (m : string) :
  has_body m = false ↔ m ∈ ["GET"; "HEAD"; "DELETE"; "PROPFIND"].
Proof.
  unfold has_body. rewrite !elem_of_cons, elem_of_nil.
  rewrite !andb_false_iff, !negb_false_iff, !String.eqb_eq. tauto.
Qed.

Lemma has_body_true (m : string) :
  has_body m = true ↔ m ∉ ["GET"; "HEAD"; "DELETE"; "PROPFIND"].
Proof. rewrite <- has_body_false. by destruct (has_body m). Qed.

Lemma foldl_write (chunks : list string) (w : Writable) :
  foldl write w chunks = mkWritable (written w ++ chunks)%list (ended w).
Proof.
  revert w. induction chunks as [|c chunks IH]; intros w; cbn [foldl].
  - rewrite app_nil_r. by destruct w.
  - rewrite IH. cbn. by rewrite <- app_assoc.
Qed.

Lemma pipe_fresh (chunks : list string) :
  pipe chunks fresh_writable = mkWritable chunks true.
Proof. unfold pipe. by rewrite foldl_write. Qed.

Lemma proxyReq_stream_callback (chunks : list string) (acts : list action) (u : upstream) :
  proxyReq_stream chunks (acts ++ callback u) = proxyReq_stream chunks acts.
Proof. unfold proxyReq_stream. rewrite foldl_app. by destruct u. Qed.

Lemma outbound_callback (acts : list action) (u : upstream) :
  outbound (acts ++ callback u) = outbound acts.
Proof. unfold outbound. rewrite omap_app. destruct u; cbn; by rewrite app_nil_r. Qed.

(** C7. On a forwarded request with method GET, HEAD, DELETE or PROPFIND
    nothing is written to the outbound request and it is ended at once; with
    any other method the chunks of the inbound body are written to it as
    they are, so the target receives the bytes the caller sent. *)
Theorem request_body_forwarding `{Node} (r : req.t) (u : upstream) :
  existsb is_request (handler r) = true →
  (req.method r ∈ ["GET"; "HEAD"; "DELETE"; "PROPFIND"] →
     proxyReq_stream (req.body r) (exchange r u) = mkWritable [] true)
  ∧ (req.method r ∉ ["GET"; "HEAD"; "DELETE"; "PROPFIND"] →
     proxyReq_stream (req.body r) (exchange r u) = mkWritable (req.body r) true
     ∧ received (proxyReq_stream (req.body r) (exchange r u))
       = String.concat "" (req.body r)).
Proof.
  intros Hreq. rewrite (exchange_forward r u Hreq), proxyReq_stream_callback.
  destruct (handler_cases r) as [Hh|[Hh|[[message Hh]|(via & o & Hh)]]];
    try (rewrite Hh in Hreq; discriminate Hreq).
  rewrite Hh. split.
  - intros Hm%has_body_false. by rewrite Hm.
  - intros Hm%has_body_true. rewrite Hm.
    assert (proxyReq_stream (req.body r) [protocol_request via o; req_pipe_proxyReq]
            = mkWritable (req.body r) true) as ->; [|done].
    apply pipe_fresh.
Qed.

Lemma request_body_forwarding_witness :
  existsb is_request (handler (H := reference.node) post_request) = true
  ∧ received (proxyReq_stream (req.body post_request)
                (exchange (H := reference.node) post_request
                   (Responds created_response))) = "payload".
Proof.
  assert (existsb is_request (handler (H := reference.node) post_request) = true)
    as Hreq by (by vm_compute).
  split; [done|].
  destruct (request_body_forwarding (H := reference.node) post_request
              (Responds created_response) Hreq) as [_ Hpipe].
  destruct Hpipe as [_ Hrecv].
  - by apply has_body_true.
  - exact Hrecv.
Defined.

Lemma build_options_headers (r : req.t) (target : URL.t) :
  options.headers (build_options r target)
  = delete "connection" (delete "host" (req.headers r)).
Proof. unfold build_options. cbn. by rewrite delete_insert_eq. Qed.

Section forwarding.
Context `{Node}.
Variables (r : req.t) (target : URL.t).

Let via : transport :=
  if String.eqb (URL.protocol target) "https:" then https else http.

Hypothesis not_preflight : req.method r ≠ "OPTIONS".
Hypothesis present : truthy (get (url_parse_query (req.url r)) "url") = true.
Hypothesis parsed :
  new_URL (ToString (get (url_parse_query (req.url r)) "url")) = inr target.
Hypothesis accepted : ClientRequest_throws via (build_options r target) = None.

(** A request with a target that parses makes exactly one outbound
    request, with the options built from the target. *)
Lemma outbound_forward (u : upstream) :
  outbound (exchange r u) = [ (via, build_options r target) ].
Proof using not_preflight present parsed accepted.
  pose proof (handler_forward r target not_preflight present parsed accepted) as Hh.
  cbv zeta in Hh. fold via in Hh.
  rewrite exchange_forward, outbound_callback; rewrite Hh; [|done].
  cbn. by destruct (has_body _).
Qed.
End forwarding.

(** The header table handed to the client has no [host] entry: the inbound
    value is dropped, and so is the entry the object literal sets to the
    target's host name, by the [delete] that follows. The target's host
    name is passed as [options.hostname]. *)
Lemma outbound_headers_without_host `{Node} (r : req.t) (target : URL.t) (u : upstream) :
  req.method r ≠ "OPTIONS" →
  truthy (get (url_parse_query (req.url r)) "url") = true →
  new_URL (ToString (get (url_parse_query (req.url r)) "url")) = inr target →
  ClientRequest_throws
    (if String.eqb (URL.protocol target) "https:" then https else http)
    (build_options r target) = None →
  ∃ via o,
    outbound (exchange r u) = [ (via, o) ]
    ∧ options.headers o !! "host" = None
    ∧ options.hostname o = URL.hostname target.
Proof.
  intros Hm Hpresent Hparsed Hok.
  exists (if String.eqb (URL.protocol target) "https:" then https else http),
         (build_options r target).
  split; [by apply outbound_forward|].
  rewrite build_options_headers. split; [|done].
  by rewrite lookup_delete_ne, lookup_delete_eq.
Qed.

Lemma lower_keys_id (h : jsobj) :
  (∀ k, is_Some (h !! k) → toLowerCase k = k) → lower_keys h = h.
Proof.
  intros Hlower. unfold lower_keys.
  assert (prod_map toLowerCase id <$> map_to_list h = map_to_list h) as ->;
    [|apply list_to_map_to_list].
  rewrite <- (list_fmap_id (map_to_list h)) at 2.
  apply list_fmap_ext. intros i [k v] Hi. cbn. f_equal.
  apply Hlower. exists v. apply elem_of_map_to_list. by eapply list_elem_of_lookup_2.
Qed.

Lemma inbound_headers_lower_case (k : string) :
  is_Some (inbound_headers !! k) → toLowerCase k = k.
Proof.
  intros [v Hk]. unfold inbound_headers, obj_of in Hk. cbn in Hk.
  repeat (apply lookup_insert_Some in Hk as [[<- _]|[_ Hk]]; [by vm_compute|]).
  by rewrite lookup_empty in Hk.
Qed.

(** C2. For a request other than OPTIONS with a valid target, the headers
    of the outbound request have a Host header whose value is the target's
    host: its host name, followed by the port when the URL holds one. The
    inbound Host is not among them: the handler deletes it from the table it
    hands to the client, and the client sets Host from the target. The names
    of the inbound headers are in lower case, as Node.js reports them, and
    the URL object holds a host name and no port that is the default of its
    scheme. *)
Theorem outbound_host_is_target_host `{Node} (r : req.t) (target : URL.t) (u : upstream) :
  req.method r ≠ "OPTIONS" →
  (∀ k, is_Some (req.headers r !! k) → toLowerCase k = k) →
  truthy (get (url_parse_query (req.url r)) "url") = true →
  new_URL (ToString (get (url_parse_query (req.url r)) "url")) = inr target →
  ClientRequest_throws
    (if String.eqb (URL.protocol target) "https:" then https else http)
    (build_options r target) = None →
  URL.hostname target ≠ "" →
  needs_brackets (URL.hostname target) = false →
  (URL.port target ≠ "" →
     port_number (PortStr (URL.port target))
       ≠ defaultPort (if String.eqb (URL.protocol target) "https:" then https else http)) →
  ∃ via o,
    outbound (exchange r u) = [ (via, o) ]
    ∧ getHeaders via o !! "host" = Some (JStr (URL_host target))
    ∧ (URL.port target = "" →
         getHeaders via o !! "host" = Some (JStr (URL.hostname target)))
    ∧ getHeaders via o
      = <["host" := JStr (URL_host target)]>
          (delete "connection" (delete "host" (req.headers r)))
    ∧ options.headers o !! "host" = None.
Proof.
  intros Hm Hlower Hpresent Hparsed Hok Hname Hplain Hport.
  set (via := if String.eqb (URL.protocol target) "https:" then https else http) in *.
  exists via, (build_options r target).
  split; [by apply outbound_forward|].
  assert (host_header via (build_options r target) = URL_host target) as Hhost.
  { unfold host_header, URL_host, build_options. cbn.
    apply String.eqb_neq in Hname. rewrite Hname, Hplain.
    destruct (String.eqb (URL.port target) "") eqn:Hp;
      cbn [negb port_truthy truthy]; rewrite ?Hp; cbn [negb port_truthy].
    - subst via. by destruct (String.eqb (URL.protocol target) "https:").
    - apply String.eqb_neq, Hport, Z.eqb_neq in Hp. by rewrite Hp. }
  assert (getHeaders via (build_options r target)
          = <["host" := JStr (URL_host target)]>
              (delete "connection" (delete "host" (req.headers r)))) as Hsent.
  { unfold getHeaders. rewrite Hhost, build_options_headers.
    rewrite lower_keys_id.
    - rewrite decide_False; [done|].
      rewrite lookup_delete_ne, lookup_delete_eq by done. by intros [].
    - intros k [v Hk]. apply Hlower. exists v.
      apply lookup_delete_Some in Hk as [_ Hk].
      by apply lookup_delete_Some in Hk as [_ Hk]. }
  rewrite Hsent, build_options_headers. split_and!.
  - apply lookup_insert_eq.
  - intros Hempty. rewrite lookup_insert_eq. unfold URL_host. by rewrite Hempty.
  - done.
  - by rewrite lookup_delete_ne, lookup_delete_eq.
Qed.

Lemma outbound_host_is_target_host_witness :
  req.method post_request ≠ "OPTIONS"
  ∧ (∀ k, is_Some (req.headers post_request !! k) → toLowerCase k = k)
  ∧ truthy (get (reference.url_parse_query (req.url post_request)) "url") = true
  ∧ reference.new_URL
      (ToString (get (reference.url_parse_query (req.url post_request)) "url"))
    = inr (URL.mk "https:" "example.test" "8443" "/dav/" "?depth=1")
  ∧ ∃ via o,
      outbound (exchange (H := reference.node) post_request (Responds created_response))
        = [ (via, o) ]
      ∧ getHeaders via o !! "host" = Some (JStr "example.test:8443")
      ∧ ("8443" = "" → getHeaders via o !! "host" = Some (JStr "example.test"))
      ∧ getHeaders via o
        = <["host" := JStr "example.test:8443"]>
            (delete "connection" (delete "host" (req.headers post_request)))
      ∧ options.headers o !! "host" = None.
Proof.
  assert (req.method post_request ≠ "OPTIONS") as Hm by (by vm_compute).
  assert (truthy (get (reference.url_parse_query (req.url post_request)) "url") = true)
    as Hpresent by (by vm_compute).
  assert (reference.new_URL
            (ToString (get (reference.url_parse_query (req.url post_request)) "url"))
          = inr (URL.mk "https:" "example.test" "8443" "/dav/" "?depth=1")) as Hparsed
    by (by vm_compute).
  split_and!; [done | exact inbound_headers_lower_case | done | done |].
  apply (outbound_host_is_target_host (H := reference.node) post_request
           (URL.mk "https:" "example.test" "8443" "/dav/" "?depth=1")
           (Responds created_response) Hm inbound_headers_lower_case
           Hpresent Hparsed eq_refl);
    [by vm_compute | by vm_compute | intros _; by vm_compute].
Defined.

(** With no port in the URL, the Host header is the host name alone. *)
Example host_header_without_port :
  getHeaders http (build_options get_request (URL.mk "http:" "example.test" "" "/foo" ""))
    !! "host" = Some (JStr "example.test")
  ∧ options.headers (build_options get_request (URL.mk "http:" "example.test" "" "/foo" ""))
      !! "host" = None
  ∧ req.headers get_request !! "host" = Some (JStr "localhost:8080").
Proof. split_and!; by vm_compute. Qed.

(** C8 (as amended). For a request other than OPTIONS with a target that
    parses, the outbound header table is the inbound one without its [host]
    and [connection] entries; every other inbound header is in it under the
    same key with the same value, and it has no entry the inbound table
    lacks. *)
Theorem outbound_headers_frame `{Node} (r : req.t) (target : URL.t) (u : upstream) :
  req.method r ≠ "OPTIONS" →
  truthy (get (url_parse_query (req.url r)) "url") = true →
  new_URL (ToString (get (url_parse_query (req.url r)) "url")) = inr target →
  ClientRequest_throws
    (if String.eqb (URL.protocol target) "https:" then https else http)
    (build_options r target) = None →
  ∃ via o,
    outbound (exchange r u) = [ (via, o) ]
    ∧ options.headers o = delete "connection" (delete "host" (req.headers r))
    ∧ options.headers o !! "connection" = None
    ∧ (∀ k, k ≠ "host" → k ≠ "connection" →
         options.headers o !! k = req.headers r !! k).
Proof.
  intros Hm Hpresent Hparsed Hok.
  exists (if String.eqb (URL.protocol target) "https:" then https else http),
         (build_options r target).
  split; [by apply outbound_forward|].
  rewrite build_options_headers. split_and!.
  - done.
  - apply lookup_delete_eq.
  - intros k Hhost Hconn. by rewrite !lookup_delete_ne.
Qed.

Lemma outbound_headers_frame_witness :
  req.method post_request ≠ "OPTIONS"
  ∧ truthy (get (reference.url_parse_query (req.url post_request)) "url") = true
  ∧ reference.new_URL
      (ToString (get (reference.url_parse_query (req.url post_request)) "url"))
    = inr (URL.mk "https:" "example.test" "8443" "/dav/" "?depth=1")
  ∧ ∃ via o,
      outbound (exchange (H := reference.node) post_request (Fails "ECONNREFUSED"))
        = [ (via, o) ]
      ∧ options.headers o = delete "connection" (delete "host" (req.headers post_request))
      ∧ options.headers o !! "connection" = None
      ∧ (∀ k, k ≠ "host" → k ≠ "connection" →
           options.headers o !! k = req.headers post_request !! k).
Proof.
  assert (req.method post_request ≠ "OPTIONS") as Hm by (by vm_compute).
  assert (truthy (get (reference.url_parse_query (req.url post_request)) "url") = true)
    as Hpresent by (by vm_compute).
  assert (reference.new_URL
            (ToString (get (reference.url_parse_query (req.url post_request)) "url"))
          = inr (URL.mk "https:" "example.test" "8443" "/dav/" "?depth=1")) as Hparsed
    by (by vm_compute).
  split_and!; [done..|].
  apply (outbound_headers_frame (H := reference.node) post_request
           (URL.mk "https:" "example.test" "8443" "/dav/" "?depth=1")
           (Fails "ECONNREFUSED") Hm Hpresent Hparsed eq_refl).
Defined.

(** C8, as stated, fails: for [GET /?url=http://example.test/foo] with an
    inbound [host] header, the outbound table is not the inbound one with
    only [connection] removed, and the inbound [host] header, which is not
    the [connection] header, is not in it. *)
Lemma inbound_host_is_removed_too :
  ∃ o,
    outbound (handler (H := reference.node) get_request) = [ (http, o) ]
    ∧ options.headers o ≠ delete "connection" (req.headers get_request)
    ∧ req.headers get_request !! "host" = Some (JStr "localhost:8080")
    ∧ options.headers o !! "host" = None.
Proof.
  eexists. split_and!; [by vm_compute | | by vm_compute | by vm_compute].
  intros Heq. apply (f_equal (λ m : jsobj, m !! "host")) in Heq.
  by vm_compute in Heq.
Qed.

(** C9. For a target that parses, the outbound request goes to the port the
    URL gives when it gives one, and otherwise to 443 when the scheme is
    https and to 80 when it is http; its path is the URL's path followed by
    its query string as the URL holds it. *)
Theorem outbound_port_and_path `{Node} (r : req.t) (target : URL.t) (u : upstream) :
  req.method r ≠ "OPTIONS" →
  truthy (get (url_parse_query (req.url r)) "url") = true →
  new_URL (ToString (get (url_parse_query (req.url r)) "url")) = inr target →
  ClientRequest_throws
    (if String.eqb (URL.protocol target) "https:" then https else http)
    (build_options r target) = None →
  ∃ via o,
    outbound (exchange r u) = [ (via, o) ]
    ∧ (URL.port target ≠ "" → options.port o = PortStr (URL.port target))
    ∧ (URL.port target = "" → URL.protocol target = "https:" →
         options.port o = PortNum 443 ∧ via = https)
    ∧ (URL.port target = "" → URL.protocol target = "http:" →
         options.port o = PortNum 80 ∧ via = http)
    ∧ options.path o = URL.pathname target ++ URL.search target.
Proof.
  intros Hm Hpresent Hparsed Hok.
  exists (if String.eqb (URL.protocol target) "https:" then https else http),
         (build_options r target).
  split; [by apply outbound_forward|].
  unfold build_options; cbn. split_and!.
  - intros Hport%String.eqb_neq. by rewrite Hport.
  - intros -> ->. done.
  - intros -> ->. done.
  - done.
Qed.

Lemma outbound_port_and_path_witness :
  req.method post_request ≠ "OPTIONS"
  ∧ truthy (get (reference.url_parse_query (req.url post_request)) "url") = true
  ∧ reference.new_URL
      (ToString (get (reference.url_parse_query (req.url post_request)) "url"))
    = inr (URL.mk "https:" "example.test" "8443" "/dav/" "?depth=1")
  ∧ ∃ via o,
      outbound (exchange (H := reference.node) post_request (Fails "ECONNREFUSED"))
        = [ (via, o) ]
      ∧ ("8443" ≠ "" → options.port o = PortStr "8443")
      ∧ ("8443" = "" → "https:" = "https:" →
           options.port o = PortNum 443 ∧ via = https)
      ∧ ("8443" = "" → "https:" = "http:" →
           options.port o = PortNum 80 ∧ via = http)
      ∧ options.path o = "/dav/" ++ "?depth=1".
Proof.
  assert (req.method post_request ≠ "OPTIONS") as Hm by (by vm_compute).
  assert (truthy (get (reference.url_parse_query (req.url post_request)) "url") = true)
    as Hpresent by (by vm_compute).
  assert (reference.new_URL
            (ToString (get (reference.url_parse_query (req.url post_request)) "url"))
          = inr (URL.mk "https:" "example.test" "8443" "/dav/" "?depth=1")) as Hparsed
    by (by vm_compute).
  split_and!; [done..|].
  apply (outbound_port_and_path (H := reference.node) post_request
           (URL.mk "https:" "example.test" "8443" "/dav/" "?depth=1")
           (Fails "ECONNREFUSED") Hm Hpresent Hparsed eq_refl).
Defined.

(** ** The response *)

Lemma forwarded_response_head `{Node} (r : req.t) (p : proxyRes.t) :
  existsb is_request (handler r) = true →
  response_head (exchange r (Responds p))
  = Some (proxyRes.statusCode p, copy_headers (proxyRes.headers p) cors_headers).
Proof.
  intros Hreq. rewrite (exchange_forward r _ Hreq).
  destruct (handler_cases r) as [Hh|[Hh|[[message Hh]|(via & o & Hh)]]];
    try (rewrite Hh in Hreq; discriminate Hreq).
  rewrite Hh. cbn. by destruct (has_body _).
Qed.

(** The overlay by exact names: a name the target sent has the target's
    value, any other name has the value of the fixed block. *)
Lemma response_relay_headers `{Node} (r : req.t) (p : proxyRes.t) :
  existsb is_request (handler r) = true →
  ∃ h,
    response_head (exchange r (Responds p)) = Some (proxyRes.statusCode p, h)
    ∧ h = proxyRes.headers p ∪ cors_headers
    ∧ (∀ k v, proxyRes.headers p !! k = Some v → h !! k = Some v)
    ∧ (∀ k, proxyRes.headers p !! k = None → h !! k = cors_headers !! k)
    ∧ map_to_list cors_headers ≡ₚ
        [ ("Access-Control-Allow-Origin", JStr "*");
          ("Access-Control-Allow-Methods",
           JStr "GET, POST, PUT, DELETE, PROPFIND, HEAD, OPTIONS");
          ("Access-Control-Allow-Headers",
           JStr "Content-Type, Authorization, Depth, User-Agent");
          ("Access-Control-Expose-Headers", JStr "*") ].
Proof.
  intros Hreq. exists (copy_headers (proxyRes.headers p) cors_headers).
  split; [by apply forwarded_response_head|].
  split; [by apply copy_headers_union|].
  split_and!.
  - intros k v Hk. by rewrite copy_headers_lookup, Hk.
  - intros k Hk. by rewrite copy_headers_lookup, Hk.
  - apply (obj_of_entries
             [ ("Access-Control-Allow-Origin", "*");
               ("Access-Control-Allow-Methods", _);
               ("Access-Control-Allow-Headers", _);
               ("Access-Control-Expose-Headers", "*") ]).
    apply (bool_decide_unpack _). by vm_compute.
Qed.





(** C5 (as amended). For a request other than OPTIONS whose [url] parameter
    is not empty and is refused by [new URL], the response has status 400,
    error field [Invalid target URL] and the parser's message as message, and
    no outbound request is made. *)
Theorem unparsable_target `{Node} (r : req.t) (u : upstream) (message : string) :
  req.method r ≠ "OPTIONS" →
  truthy (get (url_parse_query (req.url r)) "url") = true →
  new_URL (ToString (get (url_parse_query (req.url r)) "url")) = inl message →
  fst <$> response_head (exchange r u) = Some 400%Z
  ∧ response_body (exchange r u) =
      Some ("{" ++ dquote ++ "error" ++ dquote ++ ":" ++ dquote
            ++ "Invalid target URL" ++ dquote ++ ","
            ++ dquote ++ "message" ++ dquote ++ ":" ++ json_quote message ++ "}")
  ∧ outbound (exchange r u) = [].
Proof.
  intros Hm Hpresent Hrefused.
  rewrite exchange_local; rewrite (handler_invalid r message Hm Hpresent Hrefused);
    done.
Qed.

Lemma unparsable_target_witness :
  req.method not_a_url_request ≠ "OPTIONS"
  ∧ truthy (get (reference.url_parse_query (req.url not_a_url_request)) "url") = true
  ∧ reference.new_URL
      (ToString (get (reference.url_parse_query (req.url not_a_url_request)) "url"))
    = inl "Invalid URL"
  ∧ fst <$> response_head (exchange (H := reference.node) not_a_url_request
                             (Fails "unused")) = Some 400%Z
  ∧ response_body (exchange (H := reference.node) not_a_url_request (Fails "unused")) =
      Some ("{" ++ dquote ++ "error" ++ dquote ++ ":" ++ dquote
            ++ "Invalid target URL" ++ dquote ++ ","
            ++ dquote ++ "message" ++ dquote ++ ":" ++ json_quote "Invalid URL" ++ "}")
  ∧ outbound (exchange (H := reference.node) not_a_url_request (Fails "unused")) = [].
Proof.
  assert (req.method not_a_url_request ≠ "OPTIONS") as Hm by (by vm_compute).
  assert (truthy (get (reference.url_parse_query (req.url not_a_url_request)) "url")
          = true) as Hpresent by (by vm_compute).
  assert (reference.new_URL
            (ToString (get (reference.url_parse_query (req.url not_a_url_request)) "url"))
          = inl "Invalid URL") as Hrefused by (by vm_compute).
  split_and!; [done..|].
  apply (unparsable_target (H := reference.node) not_a_url_request (Fails "unused")
           "Invalid URL" Hm Hpresent Hrefused).
Defined.

(** C5, as stated, fails for a scheme other than http and https:
    [GET /?url=ftp://example.com/file] has a [url] parameter that [new URL]
    accepts, so no 400 response is written and an outbound request is made,
    over plain HTTP, to port 80 of the host. *)
Lemma unknown_scheme_is_forwarded :
  url_parse_query (Node := reference.node) (req.url ftp_request) !! "url"
    = Some (JStr "ftp://example.com/file")
  ∧ new_URL (Node := reference.node) "ftp://example.com/file"
    = inr (URL.mk "ftp:" "example.com" "" "/file" "")
  ∧ response_head (handler (H := reference.node) ftp_request) = None
  ∧ outbound (handler (H := reference.node) ftp_request)
    = [ (http,
         options.mk "example.com" (PortNum 80) "/file" "GET"
           (obj_of [ ("authorization", "Basic dXNlcjpwYXNz"); ("x-test", "abc") ])) ]
  ∧ ¬ (fst <$> response_head (exchange (H := reference.node) ftp_request
                                (Responds created_response)) = Some 400%Z
       ∧ outbound (exchange (H := reference.node) ftp_request
                     (Responds created_response)) = []).
Proof.
  split_and!; [by vm_compute..|].
  intros [_ Hout]. by vm_compute in Hout.
Qed.

(** ** Further examples on the reference instance *)

(** A port written out in the URL that is the default of its scheme reads
    back as the empty string, and the option falls back to the same
    number. *)
Example explicit_default_port :
  reference.new_URL "http://example.test:80/foo"
    = inr (URL.mk "http:" "example.test" "" "/foo" "")
  ∧ options.port (build_options get_request (URL.mk "http:" "example.test" "" "/foo" ""))
    = PortNum 80.
Proof. split; by vm_compute. Qed.

(** Property names are compared exactly: a target header
    [access-control-allow-origin], in the lower case in which Node.js
    reports header names, does not replace the entry
    [Access-Control-Allow-Origin] of the fixed block; both are written. *)
Example lowercase_header_does_not_collide :
  let h := copy_headers (obj_of [ ("access-control-allow-origin", "https://a.test") ])
             cors_headers in
  h !! "access-control-allow-origin" = Some (JStr "https://a.test")
  ∧ h !! "Access-Control-Allow-Origin" = Some (JStr "*").
Proof. split; by vm_compute. Qed.

(** A repeated [url] parameter is an array, which is truthy and is joined
    with commas by [new URL]. *)
Example repeated_url_parameter :
  get (reference.url_parse_query "/?url=http://a.test/&url=http://b.test/") "url"
    = JArr ["http://a.test/"; "http://b.test/"]
  ∧ ToString (JArr ["http://a.test/"; "http://b.test/"])
    = "http://a.test/,http://b.test/".
Proof. split; by vm_compute. Qed.

(** ** Further properties of the proxy *)

Lemma forwarded_shape `{Node} (r : req.t) :
  existsb is_request (handler r) = true →
  ∃ via o, handler r =
    [ protocol_request via o;
      if has_body (req.method r) then req_pipe_proxyReq else proxyReq_end ].
Proof.
  intros Hreq.
  destruct (handler_cases r) as [Hh|[Hh|[[message Hh]|(via & o & Hh)]]];
    try (rewrite Hh in Hreq; discriminate Hreq).
  by exists via, o.
Qed.

(** X1. When the outbound request of a forwarded request emits [error]
    before the target has answered, the caller gets status 502, the headers
    [Content-Type: application/json] and [Access-Control-Allow-Origin: *],
    and the body [{"error":"Proxy request failed","message":m}] with [m] the
    message of the error. When it emits [error] after the target has
    answered, the caller does not: the head written stays the target's, the
    listener's [res.writeHead] is a second call, which throws, and the body
    of the 502 response is never written. *)
Theorem upstream_failure_response `{Node}
    (r : req.t) (p : proxyRes.t) (message : string) :
  existsb is_request (handler r) = true →
  (∃ h,
     response_head (exchange r (Fails message)) = Some (502%Z, h)
     ∧ map_to_list h ≡ₚ [ ("Content-Type", JStr "application/json");
                          ("Access-Control-Allow-Origin", JStr "*") ]
     ∧ response_body (exchange r (Fails message)) =
         Some ("{" ++ dquote ++ "error" ++ dquote ++ ":" ++ dquote
               ++ "Proxy request failed" ++ dquote ++ ","
               ++ dquote ++ "message" ++ dquote ++ ":" ++ json_quote message ++ "}"))
  ∧ (∃ h h',
       exchange r (RespondsThenFails p message)
         = (handler r ++ [ res_writeHead (proxyRes.statusCode p) h;
                           proxyRes_pipe_res;
                           res_writeHead 502 h';
                           listener_throws ])%list
       ∧ response_head (exchange r (RespondsThenFails p message))
         = Some (proxyRes.statusCode p, h)
       ∧ response_body (exchange r (RespondsThenFails p message)) = None).
Proof.
  intros Hreq. rewrite !(exchange_forward r _ Hreq).
  destruct (forwarded_shape r Hreq) as (via & o & ->). split.
  - eexists. split_and!.
    + cbn. by destruct (has_body _).
    + apply (obj_of_entries [ ("Content-Type", "application/json");
                              ("Access-Control-Allow-Origin", "*") ]).
      apply (bool_decide_unpack _). by vm_compute.
    + cbn. by destruct (has_body _).
  - do 2 eexists. split_and!; [reflexivity | |]; cbn; by destruct (has_body _).
Qed.

Lemma upstream_failure_response_witness :
  existsb is_request (handler (H := reference.node) post_request) = true
  ∧ (∃ h,
       response_head (exchange (H := reference.node) post_request (Fails "ECONNREFUSED"))
         = Some (502%Z, h)
       ∧ map_to_list h ≡ₚ [ ("Content-Type", JStr "application/json");
                            ("Access-Control-Allow-Origin", JStr "*") ]
       ∧ response_body (exchange (H := reference.node) post_request
                          (Fails "ECONNREFUSED")) =
           Some ("{" ++ dquote ++ "error" ++ dquote ++ ":" ++ dquote
                 ++ "Proxy request failed" ++ dquote ++ ","
                 ++ dquote ++ "message" ++ dquote ++ ":"
                 ++ json_quote "ECONNREFUSED" ++ "}"))
  ∧ (∃ h h',
       exchange (H := reference.node) post_request
         (RespondsThenFails created_response "ECONNRESET")
         = (handler (H := reference.node) post_request
            ++ [ res_writeHead (proxyRes.statusCode created_response) h;
                 proxyRes_pipe_res;
                 res_writeHead 502 h';
                 listener_throws ])%list
       ∧ response_head (exchange (H := reference.node) post_request
                          (RespondsThenFails created_response "ECONNRESET"))
         = Some (proxyRes.statusCode created_response, h)
       ∧ response_body (exchange (H := reference.node) post_request
                          (RespondsThenFails created_response "ECONNRESET")) = None).
Proof.
  assert (existsb is_request (handler (H := reference.node) post_request) = true)
    as Hreq by (by vm_compute).
  split; [done|].
  split.
  - apply (upstream_failure_response (H := reference.node) post_request
             created_response "ECONNREFUSED" Hreq).
  - apply (upstream_failure_response (H := reference.node) post_request
             created_response "ECONNRESET" Hreq).
Defined.

(** X2. On a successful forward the handler writes no body of its own: the
    chunks of the target's body are written to the caller in order, nothing
    else is, and the response is ended after the last one. *)
Theorem response_body_relay `{Node} (r : req.t) (p : proxyRes.t) :
  existsb is_request (handler r) = true →
  res_stream (proxyRes.body p) (exchange r (Responds p))
    = mkWritable (proxyRes.body p) true
  ∧ received (res_stream (proxyRes.body p) (exchange r (Responds p)))
    = String.concat "" (proxyRes.body p)
  ∧ response_body (exchange r (Responds p)) = None.
Proof.
  intros Hreq. rewrite (exchange_forward r _ Hreq).
  destruct (forwarded_shape r Hreq) as (via & o & ->).
  assert (res_stream (proxyRes.body p)
            ([protocol_request via o;
              if has_body (req.method r) then req_pipe_proxyReq else proxyReq_end]
             ++ callback (Responds p))
          = mkWritable (proxyRes.body p) true) as ->.
  { destruct (has_body _); apply pipe_fresh. }
  split_and!; [done..|]. cbn. by destruct (has_body _).
Qed.

Lemma response_body_relay_witness :
  existsb is_request (handler (H := reference.node) get_request) = true
  ∧ received (res_stream (proxyRes.body created_response)
                (exchange (H := reference.node) get_request
                   (Responds created_response))) = "hello".
Proof.
  assert (existsb is_request (handler (H := reference.node) get_request) = true)
    as Hreq by (by vm_compute).
  split; [done|].
  destruct (response_body_relay (H := reference.node) get_request
              created_response Hreq) as (_ & Hrecv & _).
  exact Hrecv.
Defined.

(** X3. The method of the outbound request is the inbound method as it is,
    whatever it is, and the outbound request goes through the [https] module
    exactly when the protocol of the target is [https:]; with any other
    protocol and no port in the URL it goes through [http] to port 80. *)
Theorem outbound_method_and_transport `{Node}
    (r : req.t) (target : URL.t) (u : upstream) :
  req.method r ≠ "OPTIONS" →
  truthy (get (url_parse_query (req.url r)) "url") = true →
  new_URL (ToString (get (url_parse_query (req.url r)) "url")) = inr target →
  ClientRequest_throws
    (if String.eqb (URL.protocol target) "https:" then https else http)
    (build_options r target) = None →
  ∃ via o,
    outbound (exchange r u) = [ (via, o) ]
    ∧ options.method o = req.method r
    ∧ (via = https ↔ URL.protocol target = "https:")
    ∧ (URL.protocol target ≠ "https:" → URL.port target = "" →
         via = http ∧ options.port o = PortNum 80).
Proof.
  intros Hm Hpresent Hparsed Hok.
  exists (if String.eqb (URL.protocol target) "https:" then https else http),
         (build_options r target).
  split; [by apply outbound_forward|].
  unfold build_options; cbn. split_and!; [done| |].
  - destruct (String.eqb_spec (URL.protocol target) "https:"); split; done.
  - intros Hproto%String.eqb_neq ->. by rewrite Hproto.
Qed.

Lemma outbound_method_and_transport_witness :
  req.method ftp_request ≠ "OPTIONS"
  ∧ truthy (get (reference.url_parse_query (req.url ftp_request)) "url") = true
  ∧ reference.new_URL
      (ToString (get (reference.url_parse_query (req.url ftp_request)) "url"))
    = inr (URL.mk "ftp:" "example.com" "" "/file" "")
  ∧ ∃ via o,
      outbound (exchange (H := reference.node) ftp_request (Fails "ECONNREFUSED"))
        = [ (via, o) ]
      ∧ options.method o = req.method ftp_request
      ∧ (via = https ↔ "ftp:" = "https:")
      ∧ ("ftp:" ≠ "https:" → "" = "" → via = http ∧ options.port o = PortNum 80).
Proof.
  assert (req.method ftp_request ≠ "OPTIONS") as Hm by (by vm_compute).
  assert (truthy (get (reference.url_parse_query (req.url ftp_request)) "url") = true)
    as Hpresent by (by vm_compute).
  assert (reference.new_URL
            (ToString (get (reference.url_parse_query (req.url ftp_request)) "url"))
          = inr (URL.mk "ftp:" "example.com" "" "/file" "")) as Hparsed
    by (by vm_compute).
  split_and!; [done..|].
  apply (outbound_method_and_transport (H := reference.node) ftp_request
           (URL.mk "ftp:" "example.com" "" "/file" "")
           (Fails "ECONNREFUSED") Hm Hpresent Hparsed eq_refl).
Defined.

(** X4. The [catch] block takes every error thrown in the [try] block: when
    the target parses but the constructor of the outbound request throws, the
    caller gets the response of an invalid target, status 400 and error field
    [Invalid target URL], with the message of that error, and no outbound
    request is made. *)
Theorem constructor_error_reported_as_invalid_target `{Node}
    (r : req.t) (target : URL.t) (message : string) (u : upstream) :
  req.method r ≠ "OPTIONS" →
  truthy (get (url_parse_query (req.url r)) "url") = true →
  new_URL (ToString (get (url_parse_query (req.url r)) "url")) = inr target →
  ClientRequest_throws
    (if String.eqb (URL.protocol target) "https:" then https else http)
    (build_options r target) = Some message →
  exchange r u = invalid_target message
  ∧ fst <$> response_head (exchange r u) = Some 400%Z
  ∧ response_body (exchange r u) =
      Some ("{" ++ dquote ++ "error" ++ dquote ++ ":" ++ dquote
            ++ "Invalid target URL" ++ dquote ++ ","
            ++ dquote ++ "message" ++ dquote ++ ":" ++ json_quote message ++ "}")
  ∧ outbound (exchange r u) = [].
Proof.
  intros Hm Hpresent Hparsed Hthrows.
  assert (handler r = invalid_target message) as Hh.
  { unfold handler, try_block. apply String.eqb_neq in Hm.
    by rewrite Hm, Hpresent, Hparsed, Hthrows. }
  rewrite exchange_local; rewrite Hh; done.
Qed.

Lemma constructor_error_reported_as_invalid_target_witness :
  req.method data_url_request ≠ "OPTIONS"
  ∧ truthy (get (checking.url_parse_query (req.url data_url_request)) "url") = true
  ∧ reference.new_URL
      (ToString (get (checking.url_parse_query (req.url data_url_request)) "url"))
    = inr (URL.mk "data:" "" "" "text/plain,hello world" "")
  ∧ exchange (H := checking.node) data_url_request (Fails "unused")
    = invalid_target "Request path contains unescaped characters".
Proof.
  assert (req.method data_url_request ≠ "OPTIONS") as Hm by (by vm_compute).
  assert (truthy (get (checking.url_parse_query (req.url data_url_request)) "url")
          = true) as Hpresent by (by vm_compute).
  assert (reference.new_URL
            (ToString (get (checking.url_parse_query (req.url data_url_request)) "url"))
          = inr (URL.mk "data:" "" "" "text/plain,hello world" "")) as Hparsed
    by (by vm_compute).
  split_and!; [done..|].
  apply (constructor_error_reported_as_invalid_target (H := checking.node)
           data_url_request (URL.mk "data:" "" "" "text/plain,hello world" "")
           "Request path contains unescaped characters" (Fails "unused")
           Hm Hpresent Hparsed eq_refl).
Defined.

(** X5. One exchange makes at most one outbound request. When it makes
    none, the handler writes the head itself, once, with status 200 or 400.
    When it makes one, the handler writes no head: a callback does, so that
    [res.writeHead] is called once when the target answers or the request
    fails, twice when the target answers and the request fails afterwards,
    and never as long as neither happens. *)
Theorem heads_written_per_exchange `{Node} (r : req.t) (u : upstream) :
  (length (outbound (exchange r u)) ≤ 1)%nat
  ∧ (outbound (exchange r u) = [] →
       length (filter (λ a, is_writeHead a = true) (exchange r u)) = 1
       ∧ ∃ h, response_head (exchange r u) = Some (200%Z, h)
              ∨ response_head (exchange r u) = Some (400%Z, h))
  ∧ (outbound (exchange r u) ≠ [] →
       filter (λ a, is_writeHead a = true) (handler r) = []
       ∧ length (filter (λ a, is_writeHead a = true) (exchange r u))
         = match u with
           | Responds _ | Fails _ => 1
           | RespondsThenFails _ _ => 2
           | Silent => 0
           end).
Proof.
  destruct (handler_cases r) as [Hh|[Hh|[[message Hh]|(via & o & Hh)]]].
  - rewrite exchange_local; rewrite Hh; [|done].
    split_and!; [cbn; lia | intros _; split; [done | eexists; by left] | done].
  - rewrite exchange_local; rewrite Hh; [|done].
    split_and!; [cbn; lia | intros _; split; [done | eexists; by right] | done].
  - rewrite exchange_local; rewrite Hh; [|done].
    split_and!; [cbn; lia | intros _; split; [done | eexists; by right] | done].
  - rewrite exchange_forward; rewrite Hh; [|done].
    rewrite outbound_callback. split_and!.
    + destruct (has_body _); cbn; lia.
    + by destruct (has_body _).
    + intros _. split; [by destruct (has_body _)|].
      destruct (has_body _), u; done.
Qed.

(** X6. A [url] parameter that occurs more than once is an array. Whatever
    its values, it is not taken for a missing parameter; the string that is
    parsed as the target is its values joined by commas: when the parser
    refuses that string the response is the one of an invalid target, and
    when it accepts it the request is forwarded to the target it gives. *)
Theorem repeated_url_parameter_is_joined `{Node}
    (r : req.t) (l : list string) (u : upstream) :
  req.method r ≠ "OPTIONS" →
  url_parse_query (req.url r) !! "url" = Some (JArr l) →
  exchange r u ≠ missing_target
  ∧ (∀ message, new_URL (join "," l) = inl message →
       exchange r u = invalid_target message)
  ∧ (∀ target, new_URL (join "," l) = inr target →
       ClientRequest_throws
         (if String.eqb (URL.protocol target) "https:" then https else http)
         (build_options r target) = None →
       outbound (exchange r u)
       = [ (if String.eqb (URL.protocol target) "https:" then https else http,
            build_options r target) ]).
Proof.
  intros Hm Hq.
  assert (get (url_parse_query (req.url r)) "url" = JArr l) as Hget
    by (unfold get; by rewrite Hq).
  split_and!.
  - intros Heq. unfold exchange, handler in Heq.
    pose proof Hm as Hm'. apply String.eqb_neq in Hm'.
    rewrite Hm', Hget in Heq. cbn [truthy negb] in Heq. unfold try_block in Heq.
    destruct (new_URL _) as [message|target]; [by cbn in Heq|].
    destruct (ClientRequest_throws _ _) as [message|]; [by cbn in Heq|].
    cbn in Heq. by destruct (has_body _).
  - intros message Hrefused.
    assert (handler r = invalid_target message) as Hh.
    { apply handler_invalid; rewrite ?Hget; done. }
    rewrite exchange_local; rewrite Hh; done.
  - intros target Hparsed Hok.
    apply outbound_forward; rewrite ?Hget; done.
Qed.

Lemma repeated_url_parameter_is_joined_witness :
  req.method repeated_url_request ≠ "OPTIONS"
  ∧ reference.url_parse_query (req.url repeated_url_request) !! "url"
    = Some (JArr ["a"; "b"])
  ∧ exchange (H := reference.node) repeated_url_request (Fails "unused")
    ≠ missing_target
  ∧ exchange (H := reference.node) repeated_url_request (Fails "unused")
    = invalid_target "Invalid URL".
Proof.
  assert (req.method repeated_url_request ≠ "OPTIONS") as Hm by (by vm_compute).
  assert (reference.url_parse_query (req.url repeated_url_request) !! "url"
          = Some (JArr ["a"; "b"])) as Hq by (by vm_compute).
  destruct (repeated_url_parameter_is_joined (H := reference.node)
              repeated_url_request ["a"; "b"] (Fails "unused") Hm Hq)
    as (Hpresent & Hrefused & _).
  split_and!; [done..|]. apply Hrefused. by vm_compute.
Defined.

(** A repeated parameter whose joined values parse is forwarded. *)
Example repeated_url_parameter_forwarded :
  outbound (exchange (H := reference.node)
              (req.mk "GET" "/?url=http://a.test/&url=http://b.test/" inbound_headers [])
              Silent)
  = [ (http,
       options.mk "a.test" (PortNum 80) "/,http://b.test/" "GET"
         (obj_of [ ("authorization", "Basic dXNlcjpwYXNz"); ("x-test", "abc") ])) ].
Proof. by vm_compute. Qed.

(** X7. When the names of the target's headers are in lower case, as the
    ones Node.js reports are, no header of the target replaces an entry of
    the fixed CORS block: the four entries reach the caller with their fixed
    values, next to every header of the target. *)
Theorem lowercase_target_headers_keep_cors_block `{Node} (r : req.t) (p : proxyRes.t) :
  existsb is_request (handler r) = true →
  (∀ k, is_Some (proxyRes.headers p !! k) → toLowerCase k = k) →
  ∃ h,
    response_head (exchange r (Responds p)) = Some (proxyRes.statusCode p, h)
    ∧ (∀ k v, cors_headers !! k = Some v → h !! k = Some v)
    ∧ (∀ k v, proxyRes.headers p !! k = Some v → h !! k = Some v).
Proof.
  intros Hreq Hlower. exists (copy_headers (proxyRes.headers p) cors_headers).
  split; [by apply forwarded_response_head|]. split.
  - intros k v Hk. rewrite copy_headers_lookup.
    destruct (proxyRes.headers p !! k) as [w|] eqn:Hp; [|done].
    exfalso. assert (toLowerCase k = k) as Hfix by (apply Hlower; by rewrite Hp).
    unfold cors_headers, obj_of in Hk. cbn in Hk.
    repeat (apply lookup_insert_Some in Hk as [[<- _]|[_ Hk]];
            [by vm_compute in Hfix|]).
    by rewrite lookup_empty in Hk.
  - intros k v Hk. by rewrite copy_headers_lookup, Hk.
Qed.

Lemma lowercase_target_headers_keep_cors_block_witness :
  existsb is_request (handler (H := reference.node) get_request) = true
  ∧ (∀ k, is_Some (proxyRes.headers created_response !! k) → toLowerCase k = k)
  ∧ ∃ h,
      response_head (exchange (H := reference.node) get_request
                       (Responds created_response))
        = Some (proxyRes.statusCode created_response, h)
      ∧ (∀ k v, cors_headers !! k = Some v → h !! k = Some v)
      ∧ (∀ k v, proxyRes.headers created_response !! k = Some v → h !! k = Some v).
Proof.
  assert (existsb is_request (handler (H := reference.node) get_request) = true)
    as Hreq by (by vm_compute).
  assert (∀ k, is_Some (proxyRes.headers created_response !! k) → toLowerCase k = k)
    as Hlower.
  { intros k [v Hk]. unfold created_response, obj_of in Hk. cbn in Hk.
    repeat (apply lookup_insert_Some in Hk as [[<- _]|[_ Hk]]; [by vm_compute|]).
    by rewrite lookup_empty in Hk. }
  split_and!; [done..|].
  apply (lowercase_target_headers_keep_cors_block (H := reference.node) get_request
           created_response Hreq Hlower).
Defined.

(** ** The static file server *)

Lemma strip_parent_prefix_cases (s : string) :
  (∃ c rest, (c = "/" ∨ c = "\")%char
             ∧ s = String "." (String "." (String c rest))
             ∧ server.strip_parent_prefix s = server.strip_parent_prefix rest)
  ∨ (server.strip_parent_prefix s = s
     ∧ ∀ c rest, (c = "/" ∨ c = "\")%char → s ≠ String "." (String "." (String c rest))).
Proof.
  destruct s as [|a [|b [|c rest]]];
    try (right; split; [done|]; intros ?? _; discriminate).
  cbn [server.strip_parent_prefix].
  destruct (Ascii.eqb_spec a ".") as [->|Ha]; cbn [andb];
    [|right; split; [done|]; intros ?? _; congruence].
  destruct (Ascii.eqb_spec b ".") as [->|Hb]; cbn [andb];
    [|right; split; [done|]; intros ?? _; congruence].
  destruct (Ascii.eqb_spec c "/") as [->|Hc1]; cbn [orb].
  { left. exists "/"%char, rest. auto. }
  destruct (Ascii.eqb_spec c "\") as [->|Hc2].
  { left. exists "\"%char, rest. auto. }
  right. split; [done|]. intros c' rest' [->| ->]; congruence.
Qed.

Lemma strip_parent_prefix_spec (n : nat) (s : string) :
  (String.length s ≤ n)%nat →
  (∃ pre, s = pre ++ server.strip_parent_prefix s)
  ∧ (∀ c rest, (c = "/" ∨ c = "\")%char →
       server.strip_parent_prefix s ≠ String "." (String "." (String c rest)))
  ∧ server.strip_parent_prefix (server.strip_parent_prefix s)
    = server.strip_parent_prefix s.
Proof.
  revert s. induction n as [|n IH]; intros s Hlen.
  - destruct s; [|cbn in Hlen; lia].
    split_and!; [by exists "" | intros ?? _; discriminate | done].
  - destruct (strip_parent_prefix_cases s)
      as [(c & rest & Hc & -> & ->)|[Hfix Hno]].
    + destruct (IH rest) as (Hpre & Hnone & Hidem); [cbn in Hlen; lia|].
      split_and!; [|done..].
      destruct Hpre as [pre Hpre].
      exists (String "." (String "." (String c pre))).
      change (String "." (String "." (String c rest))
              = String "." (String "." (String c (pre ++ server.strip_parent_prefix rest)))).
      congruence.
    + rewrite !Hfix. split_and!; [by exists "" | done | done].
Qed.

Lemma prefix3_inv (a b c : ascii) (t : string) :
  String.prefix (String a (String b (String c ""))) t = true →
  ∃ rest, t = String a (String b (String c rest)).
Proof.
  destruct t as [|a' [|b' [|c' rest]]]; cbn;
    repeat (destruct (ascii_dec _ _) as [<-|]; try discriminate); try discriminate.
  intros _. by exists rest.
Qed.

(** X8. What the replacement of [/^(\.\.[\/\\])+/] leaves is the rest of
    the string after a run of [../] and [..\]: it does not start with [../]
    or with [..\] any more, and replacing again changes nothing. *)
Theorem safe_path_has_no_parent_prefix (s : string) :
  (∃ pre, s = pre ++ server.strip_parent_prefix s)
  ∧ String.prefix "../" (server.strip_parent_prefix s) = false
  ∧ String.prefix "..\" (server.strip_parent_prefix s) = false
  ∧ server.strip_parent_prefix (server.strip_parent_prefix s)
    = server.strip_parent_prefix s.
Proof.
  destruct (strip_parent_prefix_spec (String.length s) s) as (Hpre & Hnone & Hidem);
    [done|].
  split_and!; [done| | |done].
  - destruct (String.prefix "../" _) eqn:Hp; [|done].
    apply prefix3_inv in Hp as [rest Hp]. by destruct (Hnone "/"%char rest); [left|].
  - destruct (String.prefix "..\" _) eqn:Hp; [|done].
    apply prefix3_inv in Hp as [rest Hp]. by destruct (Hnone "\"%char rest); [right|].
Qed.

Section static_server.
Context `{server.Platform}.

Lemma first_default_probed (filePath : string) (files : list string) :
  Forall (λ e, ∃ p, e = server.Exists p) (server.first_default filePath files).1.
Proof.
  induction files as [|f files IH]; cbn; [constructor|].
  destruct (server.fs_existsSync _).
  - cbn. repeat constructor. by eexists.
  - destruct (server.first_default filePath files) as [probed found]. cbn in *.
    constructor; [by eexists | done].
Qed.

Lemma handleRequest_S (fuel : nat) (r : req.t) :
  server.handleRequest (S fuel) r =
  match server.decodeURIComponent
          (from_option id "null" (server.url_parse_pathname (req.url r))) with
  | inl message => Some [server.Throw message]
  | inr decoded =>
      let pathname := if String.eqb decoded "/" then "/index.html" else decoded in
      let safePath := server.strip_parent_prefix (server.path_normalize pathname) in
      let filePath := server.path_join server.__dirname safePath in
      if negb (String.prefix server.__dirname filePath) then
        Some (server.Res <$> server.sendError 403 "禁止访问")
      else
        match server.fs_stat filePath with
        | server.stat_throws message => Some [server.Stat filePath; server.Throw message]
        | server.stat_error code message =>
            Some (server.Stat filePath ::
                  (server.Res <$> (if String.eqb code "ENOENT"
                                   then server.sendError 404 "页面未找到"
                                   else server.sendError 500 "服务器内部错误")))
        | server.stat_ok true =>
            match server.first_default filePath server.DEFAULT_FILES with
            | (probed, Some defaultFile) =>
                rest ← server.handleRequest fuel
                         (server.with_url r (server.path_join pathname defaultFile));
                Some (server.Stat filePath :: probed ++ rest)%list
            | (probed, None) =>
                Some (server.Stat filePath ::
                      probed ++ (server.Res <$> server.sendError 403 "目录访问被禁止"))%list
            end
        | server.stat_ok false =>
            Some (server.Stat filePath :: server.Read filePath ::
                  (server.Res <$>
                     match server.fs_readFile filePath with
                     | inl message => server.sendError 500 "服务器内部错误"
                     | inr content =>
                         server.sendResponse 200 (server.getMimeType filePath) content
                     end))
        end
  end.
Proof. reflexivity. Qed.

(** Every run is a sequence of probes of the file system, each [fs.stat]
    on a path that starts with [__dirname], followed by one of four endings:
    an error that leaves the handler, an error page, a failed read, or a
    file. *)
Lemma handleRequest_runs (fuel : nat) (r : req.t) (evs : list server.event) :
  server.handleRequest fuel r = Some evs →
  ∃ pre tail,
    evs = (pre ++ tail)%list
    ∧ Forall (λ e, match e with
                   | server.Stat p => String.prefix server.__dirname p = true
                   | server.Exists _ => True
                   | _ => False
                   end) pre
    ∧ ((∃ message, tail = [server.Throw message])
       ∨ (∃ status message,
            status ∈ [403; 404; 500]%Z
            ∧ tail = server.Res <$> server.sendError status message)
       ∨ (∃ p message,
            String.prefix server.__dirname p = true
            ∧ server.fs_readFile p = inl message
            ∧ tail = server.Read p ::
                     (server.Res <$> server.sendError 500 "服务器内部错误"))
       ∨ (∃ p content,
            String.prefix server.__dirname p = true
            ∧ server.fs_readFile p = inr content
            ∧ tail = server.Read p ::
                     (server.Res <$>
                        server.sendResponse 200 (server.getMimeType p) content))).
Proof.
  revert r evs. induction fuel as [|fuel IH]; intros r evs Hrun; [done|].
  rewrite handleRequest_S in Hrun.
  destruct (server.decodeURIComponent _) as [message|decoded].
  { injection Hrun as <-. exists [], [server.Throw message].
    split_and!; [done | constructor | left; by eexists]. }
  cbv zeta in Hrun.
  set (pathname := if String.eqb decoded "/" then "/index.html" else decoded) in *.
  set (filePath := server.path_join _ _) in *.
  destruct (String.prefix server.__dirname filePath) eqn:Hguard; cbn [negb] in Hrun.
  2:{ injection Hrun as <-. exists [], (server.Res <$> server.sendError 403 "禁止访问").
      split_and!; [done | constructor |].
      right; left. do 2 eexists. split; [|done]. set_solver. }
  destruct (server.fs_stat filePath) as [message|code message|[|]].
  - injection Hrun as <-. exists [server.Stat filePath], [server.Throw message].
    split_and!; [done | by repeat constructor | left; by eexists].
  - injection Hrun as <-.
    exists [server.Stat filePath],
           (server.Res <$> (if String.eqb code "ENOENT"
                            then server.sendError 404 "页面未找到"
                            else server.sendError 500 "服务器内部错误")).
    split_and!; [done | by repeat constructor |].
    right; left. destruct (String.eqb code "ENOENT");
      do 2 eexists; (split; [|done]); set_solver.
  - pose proof (first_default_probed filePath server.DEFAULT_FILES) as Hprobed.
    destruct (server.first_default filePath server.DEFAULT_FILES)
      as [probed [defaultFile|]]; cbn [fst] in Hprobed.
    + destruct (server.handleRequest fuel _) as [rest|] eqn:Hrest; [|done].
      cbn in Hrun. injection Hrun as <-.
      destruct (IH _ _ Hrest) as (pre & tail & -> & Hpre & Htail).
      exists (server.Stat filePath :: probed ++ pre)%list, tail.
      split_and!; [by rewrite app_comm_cons, app_assoc | | done].
      constructor; [done|]. apply Forall_app. split; [|done].
      eapply Forall_impl; [exact Hprobed|]. by intros e [p ->].
    + injection Hrun as <-.
      exists (server.Stat filePath :: probed),
             (server.Res <$> server.sendError 403 "目录访问被禁止").
      split_and!; [done | |].
      * constructor; [done|]. eapply Forall_impl; [exact Hprobed|]. by intros e [p ->].
      * right; left. do 2 eexists. split; [|done]. set_solver.
  - injection Hrun as <-. exists [server.Stat filePath].
    destruct (server.fs_readFile filePath) as [message|content] eqn:Hread.
    + eexists. split_and!; [done | by repeat constructor |].
      right; right; left. by exists filePath, message.
    + eexists. split_and!; [done | by repeat constructor |].
      right; right; right. by exists filePath, content.
Qed.

End static_server.

Lemma responses_Res (l : list action) : server.responses (server.Res <$> l) = l.
Proof. unfold server.responses. induction l as [|a l IH]; [done|]. cbn. by f_equal. Qed.

Lemma opened_Res (l : list action) : server.opened (server.Res <$> l) = [].
Proof. by induction l. Qed.

Section static_server_runs.
Context `{server.Platform}.

Lemma probes_no_response (pre : list server.event) :
  Forall (λ e, match e with
               | server.Stat p => String.prefix server.__dirname p = true
               | server.Exists _ => True
               | _ => False
               end) pre →
  server.responses pre = []
  ∧ Forall (λ e, server.is_throw e = false) pre
  ∧ ∀ p, p ∈ server.opened pre → String.prefix server.__dirname p = true.
Proof.
  induction 1 as [|e pre He _ (IHr & IHt & IHo)]; [split_and!; [done..|set_solver]|].
  destruct e; try done; cbn.
  - split_and!; [done | by constructor |].
    intros q [->|Hq]%elem_of_cons; [done | by apply IHo].
  - split_and!; [done | by constructor | done].
Qed.

Lemma sendResponse_entries (statusCode : Z) (contentType content : string) :
  ∃ h,
    server.sendResponse statusCode contentType content
      = [ res_writeHead statusCode h; res_end (Some content) ]
    ∧ map_to_list h ≡ₚ
        [ ("Content-Type", JStr contentType);
          ("Access-Control-Allow-Origin", JStr "*");
          ("Access-Control-Allow-Methods", JStr "GET, POST, OPTIONS");
          ("Access-Control-Allow-Headers", JStr "Content-Type");
          ("Cache-Control", JStr "no-cache, no-store, must-revalidate");
          ("Pragma", JStr "no-cache");
          ("Expires", JStr "0");
          ("X-Content-Type-Options", JStr "nosniff");
          ("X-Frame-Options", JStr "DENY") ]
    ∧ h !! "Content-Type" = Some (JStr contentType).
Proof.
  eexists. split; [reflexivity|]. split.
  - apply (obj_of_entries
             [ ("Content-Type", contentType); ("Access-Control-Allow-Origin", "*");
               ("Access-Control-Allow-Methods", _); ("Access-Control-Allow-Headers", _);
               ("Cache-Control", _); ("Pragma", _); ("Expires", "0");
               ("X-Content-Type-Options", _); ("X-Frame-Options", "DENY") ]).
    apply (bool_decide_unpack _). by vm_compute.
  - unfold obj_of. cbn. apply lookup_insert_eq.
Qed.

End static_server_runs.

(** X9. In every run of [handleRequest], nested calls for a default file
    included, [fs.stat] and [fs.readFile] are only called on paths that
    start with [__dirname]. *)
Theorem static_server_opens_only_under_dirname `{server.Platform}
    (fuel : nat) (r : req.t) (evs : list server.event) :
  server.handleRequest fuel r = Some evs →
  ∀ p, p ∈ server.opened evs → String.prefix server.__dirname p = true.
Proof.
  intros Hrun p Hp.
  destruct (handleRequest_runs fuel r evs Hrun) as (pre & tail & -> & Hpre & Htail).
  destruct (probes_no_response pre Hpre) as (_ & _ & Hopened).
  unfold server.opened in Hp. rewrite omap_app in Hp.
  apply elem_of_app in Hp as [Hp|Hp]; [by apply Hopened|].
  destruct Htail as [[m ->]|[(status & m & _ & ->)|[(q & m & Hq & _ & ->)|(q & c & Hq & _ & ->)]]].
  - by apply elem_of_nil in Hp.
  - fold (server.opened (server.Res <$> server.sendError status m)) in Hp.
    rewrite opened_Res in Hp. by apply elem_of_nil in Hp.
  - cbn in Hp. apply elem_of_cons in Hp as [->|Hp]; [done|].
    by apply elem_of_nil in Hp.
  - cbn in Hp. apply elem_of_cons in Hp as [->|Hp]; [done|].
    by apply elem_of_nil in Hp.
Qed.

Lemma static_server_opens_only_under_dirname_witness :
  ∃ evs,
    server.handleRequest (H := site.platform) 2 (site.get_ "/docs/") = Some evs
    ∧ server.opened evs
      = [ "/srv/clock/docs/"; "/srv/clock/docs/default.html";
          "/srv/clock/docs/default.html" ]
    ∧ ∀ p, p ∈ server.opened evs → String.prefix "/srv/clock" p = true.
Proof.
  eexists. split; [by vm_compute|]. split; [by vm_compute|].
  apply (static_server_opens_only_under_dirname (H := site.platform) 2
           (site.get_ "/docs/")).
  by vm_compute.
Defined.

(** A run either ends with an error that leaves the handler, and then
    nothing is called on [res], or it calls [res.writeHead] once and then
    [res.end] once with a body, and nothing is thrown. *)
Lemma run_answers_once `{server.Platform}
    (fuel : nat) (r : req.t) (evs : list server.event) :
  server.handleRequest fuel r = Some evs →
  (server.responses evs = [] ∧ ∃ message, last evs = Some (server.Throw message))
  ∨ (∃ status h content,
       server.responses evs = [ res_writeHead status h; res_end (Some content) ]
       ∧ status ∈ [200; 403; 404; 500]%Z
       ∧ Forall (λ e, server.is_throw e = false) evs).
Proof.
  intros Hrun.
  destruct (handleRequest_runs fuel r evs Hrun) as (pre & tail & -> & Hpre & Htail).
  destruct (probes_no_response pre Hpre) as (Hnone & Hquiet & _).
  unfold server.responses in *. rewrite omap_app, Hnone, app_nil_l.
  destruct Htail as [[m ->]|[(status & m & Hst & ->)|[(q & m & _ & _ & ->)|(q & c & _ & _ & ->)]]].
  - left. split; [done|]. exists m. by rewrite last_snoc.
  - right. exists status. do 2 eexists. split_and!; [reflexivity | apply elem_of_cons; by right |].
    apply Forall_app. split; [done|]. by repeat constructor.
  - right. exists 500%Z. do 2 eexists. split_and!; [reflexivity | set_solver |].
    apply Forall_app. split; [done|]. by repeat constructor.
  - right. exists 200%Z. do 2 eexists. split_and!; [reflexivity | set_solver |].
    apply Forall_app. split; [done|]. by repeat constructor.
Qed.

(** A call of [handleRequest] ends by itself when it makes no nested call,
    and otherwise ends when the nested call does. *)
Lemma handleRequest_nested `{server.Platform} (r : req.t) :
  match server.nested_request r with
  | None => ∃ evs, ∀ fuel, server.handleRequest (S fuel) r = Some evs
  | Some r' =>
      ∃ pre, ∀ fuel,
        server.handleRequest (S fuel) r
        = (λ rest, (pre ++ rest)%list) <$> server.handleRequest fuel r'
  end.
Proof.
  unfold server.nested_request.
  destruct (server.decodeURIComponent _) as [message|decoded] eqn:Hdec.
  { eexists. intros fuel. by rewrite handleRequest_S, Hdec. }
  cbv zeta.
  destruct (negb (String.prefix server.__dirname _)) eqn:Hguard.
  { eexists. intros fuel. rewrite handleRequest_S, Hdec. cbv zeta. by rewrite Hguard. }
  destruct (server.fs_stat _) as [message|code message|[|]] eqn:Hstat.
  - eexists. intros fuel. rewrite handleRequest_S, Hdec. cbv zeta.
    by rewrite Hguard, Hstat.
  - eexists. intros fuel. rewrite handleRequest_S, Hdec. cbv zeta.
    by rewrite Hguard, Hstat.
  - destruct (server.first_default _ _) as [probed [defaultFile|]] eqn:Hdefault.
    + eexists (_ :: probed). intros fuel. rewrite handleRequest_S, Hdec. cbv zeta.
      rewrite Hguard, Hstat, Hdefault. by destruct (server.handleRequest fuel _).
    + eexists. intros fuel. rewrite handleRequest_S, Hdec. cbv zeta.
      by rewrite Hguard, Hstat, Hdefault.
  - eexists. intros fuel. rewrite handleRequest_S, Hdec. cbv zeta.
    by rewrite Hguard, Hstat.
Qed.

(** [handleRequest] returns within [n] calls exactly when the chain of
    nested calls ends within [n] calls. *)
Lemma handleRequest_settles `{server.Platform} (n : nat) (r : req.t) :
  server.settles n r = true ↔ is_Some (server.handleRequest n r).
Proof.
  revert r. induction n as [|n IH]; intros r.
  { split; [done | by intros []]. }
  pose proof (handleRequest_nested r) as Hnested. cbn [server.settles].
  destruct (server.nested_request r) as [r'|].
  - destruct Hnested as [pre Hpre]. rewrite Hpre, IH. split.
    + intros [rest ->]. by eexists.
    + intros [evs Hevs]. by destruct (server.handleRequest n r').
  - destruct Hnested as [evs Hevs]. rewrite Hevs. split; [by eexists | done].
Qed.

(** X10. When the chain of the nested calls that [handleRequest] makes for
    the default file of a directory ends within [n] calls, [handleRequest]
    returns, and its run either ends with an error that leaves the handler,
    nothing having been called on [res], or calls [res.writeHead] once and
    then [res.end] once with a body, with status 200, 403, 404 or 500, and
    throws nothing. A request that needs no nested call is one such, with
    [n = 1]. *)
Theorem static_server_answers_once `{server.Platform} (n : nat) (r : req.t) :
  server.settles n r = true →
  ∃ evs,
    server.handleRequest n r = Some evs
    ∧ ((server.responses evs = [] ∧ ∃ message, last evs = Some (server.Throw message))
       ∨ (∃ status h content,
            server.responses evs = [ res_writeHead status h; res_end (Some content) ]
            ∧ status ∈ [200; 403; 404; 500]%Z
            ∧ Forall (λ e, server.is_throw e = false) evs)).
Proof.
  intros [evs Hrun]%handleRequest_settles. exists evs. split; [done|].
  by eapply run_answers_once.
Qed.

Lemma static_server_answers_once_witness :
  server.settles (H := site.platform) 2 (site.get_ "/docs/") = true
  ∧ ∃ evs,
      server.handleRequest (H := site.platform) 2 (site.get_ "/docs/") = Some evs
      ∧ ((server.responses evs = [] ∧ ∃ message, last evs = Some (server.Throw message))
         ∨ (∃ status h content,
              server.responses evs = [ res_writeHead status h; res_end (Some content) ]
              ∧ status ∈ [200; 403; 404; 500]%Z
              ∧ Forall (λ e, server.is_throw e = false) evs)).
Proof.
  split; [by vm_compute|].
  apply (static_server_answers_once (H := site.platform) 2 (site.get_ "/docs/")).
  by vm_compute.
Defined.

(** A request whose path is not a directory with a default file is
    answered by the first call. *)
Example settles_without_nested_call `{server.Platform} (r : req.t) :
  server.nested_request r = None → server.settles 1 r = true.
Proof. intros Hnone. cbn. by rewrite Hnone. Qed.

(** X11. Every response of [handleRequest], the file and each error page
    alike, has an header table of nine entries: its content type, the three
    CORS headers, the three that forbid caching, [X-Content-Type-Options:
    nosniff] and [X-Frame-Options: DENY]. *)
Theorem static_server_response_headers `{server.Platform}
    (fuel : nat) (r : req.t) (evs : list server.event) (status : Z) (h : jsobj) :
  server.handleRequest fuel r = Some evs →
  res_writeHead status h ∈ server.responses evs →
  ∃ contentType,
    map_to_list h ≡ₚ
      [ ("Content-Type", JStr contentType);
        ("Access-Control-Allow-Origin", JStr "*");
        ("Access-Control-Allow-Methods", JStr "GET, POST, OPTIONS");
        ("Access-Control-Allow-Headers", JStr "Content-Type");
        ("Cache-Control", JStr "no-cache, no-store, must-revalidate");
        ("Pragma", JStr "no-cache");
        ("Expires", JStr "0");
        ("X-Content-Type-Options", JStr "nosniff");
        ("X-Frame-Options", JStr "DENY") ].
Proof.
  intros Hrun Hin.
  destruct (handleRequest_runs fuel r evs Hrun) as (pre & tail & -> & Hpre & Htail).
  destruct (probes_no_response pre Hpre) as (Hnone & _ & _).
  unfold server.responses in *. rewrite omap_app, Hnone, app_nil_l in Hin.
  assert (∀ st ct c, res_writeHead status h ∈ server.sendResponse st ct c →
            ∃ contentType, map_to_list h ≡ₚ
              [ ("Content-Type", JStr contentType);
                ("Access-Control-Allow-Origin", JStr "*");
                ("Access-Control-Allow-Methods", JStr "GET, POST, OPTIONS");
                ("Access-Control-Allow-Headers", JStr "Content-Type");
                ("Cache-Control", JStr "no-cache, no-store, must-revalidate");
                ("Pragma", JStr "no-cache");
                ("Expires", JStr "0");
                ("X-Content-Type-Options", JStr "nosniff");
                ("X-Frame-Options", JStr "DENY") ]) as Hsend.
  { intros st ct c Hh.
    destruct (sendResponse_entries st ct c) as (h' & Heq & Hentries & _).
    rewrite Heq in Hh. apply elem_of_cons in Hh as [Hh|Hh].
    - injection Hh as _ ->. by exists ct.
    - apply elem_of_cons in Hh as [Hh|Hh]; [done | by apply elem_of_nil in Hh]. }
  destruct Htail as [[m ->]|[(st & m & _ & ->)|[(q & m & _ & _ & ->)|(q & c & _ & _ & ->)]]].
  - by apply elem_of_nil in Hin.
  - fold (server.responses (server.Res <$> server.sendError st m)) in Hin.
    rewrite responses_Res in Hin. by eapply Hsend.
  - cbn [omap list_omap] in Hin.
    fold (server.responses (server.Res <$> server.sendError 500 "服务器内部错误")) in Hin.
    rewrite responses_Res in Hin. by eapply Hsend.
  - cbn [omap list_omap] in Hin.
    fold (server.responses
            (server.Res <$> server.sendResponse 200 (server.getMimeType q) c)) in Hin.
    rewrite responses_Res in Hin. by eapply Hsend.
Qed.

Lemma static_server_response_headers_witness :
  ∃ evs h,
    server.handleRequest (H := site.platform) 1 (site.get_ "/empty") = Some evs
    ∧ res_writeHead 403 h ∈ server.responses evs
    ∧ ∃ contentType,
        map_to_list h ≡ₚ
          [ ("Content-Type", JStr contentType);
            ("Access-Control-Allow-Origin", JStr "*");
            ("Access-Control-Allow-Methods", JStr "GET, POST, OPTIONS");
            ("Access-Control-Allow-Headers", JStr "Content-Type");
            ("Cache-Control", JStr "no-cache, no-store, must-revalidate");
            ("Pragma", JStr "no-cache");
            ("Expires", JStr "0");
            ("X-Content-Type-Options", JStr "nosniff");
            ("X-Frame-Options", JStr "DENY") ].
Proof.
  do 2 eexists.
  assert (server.handleRequest (H := site.platform) 1 (site.get_ "/empty")
          = Some (server.Stat "/srv/clock/empty"
                  :: server.Exists "/srv/clock/empty/index.html"
                  :: server.Exists "/srv/clock/empty/default.html"
                  :: (server.Res <$> server.sendError 403 "目录访问被禁止"))) as Hrun
    by (by vm_compute).
  split; [exact Hrun|].
  assert (res_writeHead 403
            (obj_of [ ("Content-Type", "text/html; charset=utf-8");
                      ("Access-Control-Allow-Origin", "*");
                      ("Access-Control-Allow-Methods", "GET, POST, OPTIONS");
                      ("Access-Control-Allow-Headers", "Content-Type");
                      ("Cache-Control", "no-cache, no-store, must-revalidate");
                      ("Pragma", "no-cache");
                      ("Expires", "0");
                      ("X-Content-Type-Options", "nosniff");
                      ("X-Frame-Options", "DENY") ])
          ∈ server.responses
              (server.Stat "/srv/clock/empty"
               :: server.Exists "/srv/clock/empty/index.html"
               :: server.Exists "/srv/clock/empty/default.html"
               :: (server.Res <$> server.sendError 403 "目录访问被禁止"))) as Hin
    by (apply elem_of_cons; by left).
  split; [exact Hin|].
  exact (static_server_response_headers (H := site.platform) 1 (site.get_ "/empty")
           _ 403 _ Hrun Hin).
Defined.

(** X12. A response with status 200 is always a file that was read: its
    body is what [fs.readFile] gave for the last path opened, which starts
    with [__dirname], and its content type is [getMimeType] of that path. *)
Theorem static_server_ok_is_a_file `{server.Platform}
    (fuel : nat) (r : req.t) (evs : list server.event) (h : jsobj) :
  server.handleRequest fuel r = Some evs →
  response_head (server.responses evs) = Some (200%Z, h) →
  ∃ p content,
    last (server.opened evs) = Some p
    ∧ String.prefix server.__dirname p = true
    ∧ server.fs_readFile p = inr content
    ∧ response_body (server.responses evs) = Some content
    ∧ h !! "Content-Type" = Some (JStr (server.getMimeType p)).
Proof.
  intros Hrun Hhead.
  destruct (handleRequest_runs fuel r evs Hrun) as (pre & tail & -> & Hpre & Htail).
  destruct (probes_no_response pre Hpre) as (Hnone & _ & _).
  unfold server.responses, server.opened in *.
  rewrite !omap_app, Hnone, app_nil_l in *.
  destruct Htail as [[m ->]|[(st & m & Hst & ->)|[(q & m & _ & _ & ->)|(q & c & Hq & Hread & ->)]]].
  - done.
  - fold (server.responses (server.Res <$> server.sendError st m)) in Hhead.
    rewrite responses_Res in Hhead. cbn in Hhead. injection Hhead as -> _.
    repeat (apply elem_of_cons in Hst as [Hst|Hst]; [done|]).
    by apply elem_of_nil in Hst.
  - cbn [omap list_omap] in Hhead.
    fold (server.responses (server.Res <$> server.sendError 500 "服务器内部错误")) in Hhead.
    rewrite responses_Res in Hhead. cbn in Hhead. by injection Hhead.
  - exists q, c. cbn [omap list_omap] in *.
    fold (server.responses
            (server.Res <$> server.sendResponse 200 (server.getMimeType q) c)) in *.
    fold (server.opened
            (server.Res <$> server.sendResponse 200 (server.getMimeType q) c)).
    rewrite responses_Res in *. rewrite opened_Res.
    destruct (sendResponse_entries 200 (server.getMimeType q) c) as (h' & Heq & _ & Hct).
    rewrite Heq in *. cbn in Hhead. injection Hhead as <-.
    split_and!; [by rewrite last_snoc | done..].
Qed.

Lemma static_server_ok_is_a_file_witness :
  ∃ evs h,
    server.handleRequest (H := site.platform) 2 (site.get_ "/") = Some evs
    ∧ response_head (server.responses evs) = Some (200%Z, h)
    ∧ ∃ p content,
        last (server.opened evs) = Some p
        ∧ String.prefix "/srv/clock" p = true
        ∧ site.fs_readFile p = inr content
        ∧ response_body (server.responses evs) = Some content
        ∧ h !! "Content-Type" = Some (JStr (server.getMimeType (H := site.platform) p)).
Proof.
  do 2 eexists.
  assert (server.handleRequest (H := site.platform) 2 (site.get_ "/")
          = Some (server.Stat "/srv/clock/index.html"
                  :: server.Read "/srv/clock/index.html"
                  :: (server.Res <$>
                        server.sendResponse 200 "text/html; charset=utf-8"
                          "<h1>clock</h1>"))) as Hrun by (by vm_compute).
  split; [exact Hrun|]. split; [reflexivity|].
  exact (static_server_ok_is_a_file (H := site.platform) 2 (site.get_ "/") _ _
           Hrun eq_refl).
Defined.

(** X13. A request whose decoded path is [/] is handled as one whose
    decoded path is [/index.html]: the two runs are the same. *)
Theorem root_is_index_html `{server.Platform} (fuel : nat) (r : req.t) (u1 u2 : string) :
  server.decodeURIComponent (from_option id "null" (server.url_parse_pathname u1))
    = inr "/" →
  server.decodeURIComponent (from_option id "null" (server.url_parse_pathname u2))
    = inr "/index.html" →
  server.handleRequest fuel (server.with_url r u1)
  = server.handleRequest fuel (server.with_url r u2).
Proof.
  intros H1 H2. destruct fuel as [|fuel]; [done|].
  rewrite !handleRequest_S. cbn [server.with_url req.url]. by rewrite H1, H2.
Qed.

Lemma root_is_index_html_witness :
  site.decodeURIComponent (from_option id "null" (site.url_parse_pathname "/?v=2"))
    = inr "/"
  ∧ site.decodeURIComponent
      (from_option id "null" (site.url_parse_pathname "/index%2Ehtml"))
    = inr "/index.html"
  ∧ server.handleRequest (H := site.platform) 1 (server.with_url (site.get_ "") "/?v=2")
    = server.handleRequest (H := site.platform) 1
        (server.with_url (site.get_ "") "/index%2Ehtml").
Proof.
  split; [by vm_compute|]. split; [by vm_compute|].
  apply (root_is_index_html (H := site.platform) 1 (site.get_ "") "/?v=2"
           "/index%2Ehtml"); by vm_compute.
Defined.

(** X14. [handleRequest] catches nothing: when [decodeURIComponent] throws
    on the path of the request, as on a [%] that no two hexadecimal digits
    follow, the error leaves the listener before anything is called on [res]
    or on the file system, and the request is left without a response. *)
Theorem malformed_escape_is_unanswered `{server.Platform}
    (fuel : nat) (r : req.t) (message : string) :
  req.method r ≠ "OPTIONS" →
  server.decodeURIComponent
    (from_option id "null" (server.url_parse_pathname (req.url r))) = inl message →
  server.requestListener (S fuel) r = Some [ server.Throw message ]
  ∧ server.responses [ server.Throw message ] = []
  ∧ server.opened [ server.Throw message ] = [].
Proof.
  intros Hm%String.eqb_neq Hdec. unfold server.requestListener.
  by rewrite Hm, handleRequest_S, Hdec.
Qed.

Lemma malformed_escape_is_unanswered_witness :
  req.method (site.get_ "/100%") ≠ "OPTIONS"
  ∧ site.decodeURIComponent
      (from_option id "null" (site.url_parse_pathname (req.url (site.get_ "/100%"))))
    = inl "URI malformed"
  ∧ server.requestListener (H := site.platform) 1 (site.get_ "/100%")
    = Some [ server.Throw "URI malformed" ]
  ∧ server.responses [ server.Throw "URI malformed" ] = []
  ∧ server.opened [ server.Throw "URI malformed" ] = [].
Proof.
  assert (req.method (site.get_ "/100%") ≠ "OPTIONS") as Hm by (by vm_compute).
  assert (site.decodeURIComponent
            (from_option id "null" (site.url_parse_pathname (req.url (site.get_ "/100%"))))
          = inl "URI malformed") as Hdec by (by vm_compute).
  split_and!; [done..| | |];
    apply (malformed_escape_is_unanswered (H := site.platform) 0 (site.get_ "/100%")
             "URI malformed" Hm Hdec).
Defined.

(** X15. The static server answers a request whose method is OPTIONS with
    status 200, an empty body and exactly three CORS headers, without reading
    the request target or the file system. *)
Theorem static_preflight `{server.Platform} (fuel : nat) (r : req.t) :
  req.method r = "OPTIONS" →
  ∃ h,
    server.requestListener fuel r
      = Some [ server.Res (res_writeHead 200 h); server.Res (res_end None) ]
    ∧ map_to_list h ≡ₚ
        [ ("Access-Control-Allow-Origin", JStr "*");
          ("Access-Control-Allow-Methods", JStr "GET, POST, OPTIONS");
          ("Access-Control-Allow-Headers", JStr "Content-Type") ]
    ∧ server.opened [ server.Res (res_writeHead 200 h); server.Res (res_end None) ] = [].
Proof.
  intros Hm. unfold server.requestListener. rewrite Hm. cbn [String.eqb].
  eexists. split; [reflexivity|]. split; [|done].
  apply (obj_of_entries [ ("Access-Control-Allow-Origin", "*");
                          ("Access-Control-Allow-Methods", "GET, POST, OPTIONS");
                          ("Access-Control-Allow-Headers", "Content-Type") ]).
  apply (bool_decide_unpack _). by vm_compute.
Qed.

Lemma static_preflight_witness :
  req.method preflight_request = "OPTIONS"
  ∧ ∃ h,
      server.requestListener (H := site.platform) 0 preflight_request
        = Some [ server.Res (res_writeHead 200 h); server.Res (res_end None) ]
      ∧ map_to_list h ≡ₚ
          [ ("Access-Control-Allow-Origin", JStr "*");
            ("Access-Control-Allow-Methods", JStr "GET, POST, OPTIONS");
            ("Access-Control-Allow-Headers", JStr "Content-Type") ]
      ∧ server.opened [ server.Res (res_writeHead 200 h); server.Res (res_end None) ]
        = [].
Proof.
  split; [reflexivity|].
  apply (static_preflight (H := site.platform) 0 preflight_request eq_refl).
Defined.

Lemma MIME_TYPES_values (ext : string) (v : jsval) :
  server.MIME_TYPES !! ext = Some v → ∃ t, v = JStr t ∧ t ≠ "".
Proof.
  unfold server.MIME_TYPES, obj_of. cbn. intros Hv.
  repeat (apply lookup_insert_Some in Hv as [[_ <-]|[_ Hv]]; [by eexists|]).
  by rewrite lookup_empty in Hv.
Qed.

(** X16. [getMimeType] looks the extension up in lower case: it gives the
    type the table has for it, [application/octet-stream] when the table has
    none, and never the empty string; two paths whose extensions differ in
    case only have the same type. *)
Theorem getMimeType_by_extension `{server.Platform} (filePath : string) :
  (∀ t, server.MIME_TYPES !! toLowerCase (server.path_extname filePath) = Some (JStr t) →
        server.getMimeType filePath = t)
  ∧ (server.MIME_TYPES !! toLowerCase (server.path_extname filePath) = None →
       server.getMimeType filePath = "application/octet-stream")
  ∧ server.getMimeType filePath ≠ ""
  ∧ (∀ other,
       toLowerCase (server.path_extname other)
         = toLowerCase (server.path_extname filePath) →
       server.getMimeType other = server.getMimeType filePath).
Proof.
  unfold server.getMimeType, get. split_and!.
  - intros t Ht. rewrite Ht. cbn.
    destruct (MIME_TYPES_values _ _ Ht) as (t' & [= <-] & Hne).
    apply String.eqb_neq in Hne. by rewrite Hne.
  - by intros ->.
  - destruct (server.MIME_TYPES !! _) as [v|] eqn:Hv; [|done].
    destruct (MIME_TYPES_values _ _ Hv) as (t & -> & Hne). cbn.
    apply String.eqb_neq in Hne. by rewrite Hne; apply String.eqb_neq.
  - by intros other ->.
Qed.

(** A run that ends keeps its result when it is given more fuel. *)
Lemma handleRequest_fuel_mono `{server.Platform}
    (fuel fuel' : nat) (r : req.t) (evs : list server.event) :
  (fuel ≤ fuel')%nat →
  server.handleRequest fuel r = Some evs →
  server.handleRequest fuel' r = Some evs.
Proof.
  revert fuel' r evs. induction fuel as [|fuel IH]; intros fuel' r evs Hle Hrun; [done|].
  destruct fuel' as [|fuel']; [lia|].
  rewrite handleRequest_S in *.
  destruct (server.decodeURIComponent _); [done|]. cbv zeta in *.
  destruct (negb _); [done|].
  destruct (server.fs_stat _) as [| |[|]]; try done.
  destruct (server.first_default _ _) as [probed [defaultFile|]]; [|done].
  destruct (server.handleRequest fuel _) as [rest|] eqn:Hrest; [|done].
  by rewrite (IH fuel' _ rest ltac:(lia) Hrest).
Qed.

(** ** Examples on the sample site *)

Example site_content_types :
  server.getMimeType (H := site.platform) "/srv/clock/app.JS"
    = "text/javascript; charset=utf-8"
  ∧ server.getMimeType (H := site.platform) "/srv/clock/LICENSE"
    = "application/octet-stream"
  ∧ server.getMimeType (H := site.platform) "/srv/clock/.html"
    = "application/octet-stream".
Proof. split_and!; by vm_compute. Qed.

(** A path that climbs out of the directory is normalised before it is
    joined, so it is looked up inside the directory. *)
Example site_parent_segments :
  server.opened <$> server.handleRequest (H := site.platform) 1
                      (site.get_ "/../../etc/passwd")
    = Some [ "/srv/clock/etc/passwd" ]
  ∧ (λ evs, fst <$> response_head (server.responses evs))
      <$> server.handleRequest (H := site.platform) 1 (site.get_ "/../../etc/passwd")
    = Some (Some 404%Z).
Proof. split; by vm_compute. Qed.

(** A null byte in the decoded path makes [fs.stat] throw: no response. *)
Example site_null_byte :
  server.responses <$> server.handleRequest (H := site.platform) 1 (site.get_ "/%00")
    = Some [].
Proof. by vm_compute. Qed.
